(** * The intent broker of the salon checkout demo

    A shallow embedding of the two revisions of [server.js]: the platform
    revision (one processor client built from the secret key) and the
    connected-account revision (the client is additionally bound to a
    connected account).  Each revision registers the same routes:

      - [GET /]                               renders the page,
      - [POST /create-payment-intent]         customer + payment intent,
      - [POST /create-setup-intent]           customer + setup intent,
      - [POST /create-customer-setup-intent]  customer + setup intent.

    The handlers are [async] functions that [await] the processor client and
    write to the Express response object.  They are embedded in a small
    monad threading the processor's state and a trace of the calls placed,
    with JavaScript's [try]/[catch] as a combinator.

    The page script [client.js], in its two revisions, is embedded the same
    way over the document, the script's globals and the calls it places on
    the network and on Stripe.js; the last part runs the page against its
    own server. *)

From Stdlib Require Import ZArith String List.
From Stdlib Require Import Floats.SpecFloat.
From stdpp Require Import base option gmap strings list.

Local Open Scope string_scope.

(* ===================================================================== *)
(** * JavaScript values *)
(* ===================================================================== *)

(** The values a parsed JSON body, an options object or a processor reply is
    made of.  Numbers are IEEE-754 doubles, kept as the Standard Library's
    [spec_float]; plain objects are finite maps from property names. *)

#[local] Unset Elimination Schemes.
Inductive jsval : Type :=
| JUndefined
| JNull
| JBool (b : bool)
| JNum (x : spec_float)
| JStr (s : string)
| JArr (l : list jsval)
| JObj (m : gmap string jsval).
#[local] Set Elimination Schemes.

Abbreviation obj := (gmap string jsval).

(** [o.k] on a plain object: an absent property reads as [undefined]. *)
Definition get (k : string) (o : obj) : jsval :=
  default JUndefined (o !! k).

(** [o.k = v] on a plain object. *)
Definition assign (k : string) (v : jsval) (o : obj) : obj :=
  <[k := v]> o.

(** ECMAScript [ToBoolean]: the test performed by [if (x)] and [x || y]. *)
Definition ToBoolean (v : jsval) : bool :=
  match v with
  | JUndefined | JNull => false
  | JBool b => b
  | JNum (S754_zero _) | JNum S754_nan => false
  | JNum _ => true
  | JStr s => negb (String.eqb s "")
  | JArr _ | JObj _ => true
  end.

(** [a || b]. *)
Definition js_or (a b : jsval) : jsval :=
  if ToBoolean a then a else b.

(** The double nearest to the integer [n] (a numeric literal such as
    [4242], or an integer read from a JSON body). *)
Definition js_int (n : Z) : jsval :=
  JNum (binary_normalize 53 1024 n 0 false).

(** [process.env]: every variable that is set is a string. *)
Definition env_get (env : gmap string string) (k : string) : jsval :=
  match env !! k with
  | Some s => JStr s
  | None => JUndefined
  end.

(* ===================================================================== *)
(** * The processor client *)
(* ===================================================================== *)

(** A promise returned by the client settles either way; both the value it
    resolves to and the exception it rejects with are objects. *)
Inductive Settled : Type :=
| Resolved (v : obj)
| Rejected (e : obj).

(** The calls a handler can place on the client.  [CustomersDel] is part of
    the client's interface although no handler uses it. *)
Inductive Call : Type :=
| CustomersCreate
| CustomersDel (customer : jsval)
| PaymentIntentsCreate (options : obj)
| SetupIntentsCreate (options : obj).

(** The client over its hidden state [W] (the remote account, a mock's
    script, the network): each method consumes the state and settles. *)
Record Client (W : Type) : Type := {
  customers_create : W -> Settled * W;
  customers_del : jsval -> W -> Settled * W;
  paymentIntents_create : obj -> W -> Settled * W;
  setupIntents_create : obj -> W -> Settled * W
}.
Arguments customers_create {W}.
Arguments customers_del {W}.
Arguments paymentIntents_create {W}.
Arguments setupIntents_create {W}.

(** What a method of [client] does for a given call. *)
Definition perform {W} (client : Client W) (c : Call) : W -> Settled * W :=
  match c with
  | CustomersCreate => customers_create client
  | CustomersDel cu => customers_del client cu
  | PaymentIntentsCreate o => paymentIntents_create client o
  | SetupIntentsCreate o => setupIntents_create client o
  end.

(* ===================================================================== *)
(** * Asynchronous handlers *)
(* ===================================================================== *)

(** The world a handler runs in: the processor's state, and the calls
    placed so far together with how each one settled. *)
Record World (W : Type) : Type := mkWorld {
  processor : W;
  trace : list (Call * Settled)
}.
Arguments mkWorld {W}.
Arguments processor {W}.
Arguments trace {W}.

Inductive Completion (A : Type) : Type :=
| Normal (a : A)
| Throw (e : obj).
Arguments Normal {A}.
Arguments Throw {A}.

Definition Async (W A : Type) : Type := World W -> Completion A * World W.

Definition ret {W A} (a : A) : Async W A := fun w => (Normal a, w).

Definition bind {W A B} (m : Async W A) (k : A -> Async W B) : Async W B :=
  fun w =>
    match m w with
    | (Normal a, w') => k a w'
    | (Throw e, w') => (Throw e, w')
    end.

(** [try { body } catch (e) { handler }]. *)
Definition try_catch {W A} (body : Async W A) (handler : obj -> Async W A)
  : Async W A :=
  fun w =>
    match body w with
    | (Normal a, w') => (Normal a, w')
    | (Throw e, w') => handler e w'
    end.

(** [await client.method(...)]: place the call, record it, and continue with
    the value or throw the rejection. *)
Definition await {W} (client : Client W) (c : Call) : Async W obj :=
  fun w =>
    let '(r, p) := perform client c (processor w) in
    let w' := mkWorld p (trace w ++ [(c, r)]) in
    match r with
    | Resolved v => (Normal v, w')
    | Rejected e => (Throw e, w')
    end.

Declare Scope async_scope.
Delimit Scope async_scope with async.
Notation "x <- m ;; k" := (bind m (fun x => k))
  (at level 100, m at next level, right associativity) : async_scope.

(** Run a computation against a processor state, from an empty trace. *)
Definition run {W A} (m : Async W A) (p : W) : Completion A * World W :=
  m (mkWorld p []).

(* ===================================================================== *)
(** * Express requests and responses *)
(* ===================================================================== *)

Inductive Method : Type :=
| GET | HEAD | POST | PUT | DELETE | OPTIONS | PATCH
| OtherMethod (name : string).   (* any other request method *)

(** [path] is the path of the request target, without its query string.
    [body] is [req.body] as left by the JSON body parser, an object: a
    request the parser refuses is answered by the parser, reaches no
    route, and is not a value of this type. *)
Record Req : Type := mkReq {
  method : Method;
  path : string;
  body : obj
}.

(** What was written to the response. *)
Inductive Payload : Type :=
| Sent (v : jsval)                       (* res.send(v) *)
| Rendered (view : string) (locals : obj) (* res.render(view, locals) *)
| File (content : string)                (* a static file *)
| Allowed (methods : list Method)        (* the framework's answer to OPTIONS *)
| NotFound.                              (* the framework's final handler *)

Record Res : Type := mkRes {
  statusCode : Z;
  payload : option Payload
}.

(** A fresh response object: status 200, nothing written. *)
Definition fresh : Res := mkRes 200 None.

Definition status (code : Z) (res : Res) : Res :=
  mkRes code (payload res).

Definition send (v : jsval) (res : Res) : Res :=
  mkRes (statusCode res) (Some (Sent v)).

Definition render (view : string) (locals : obj) (res : Res) : Res :=
  mkRes (statusCode res) (Some (Rendered view locals)).

(** [express.static(root)]: [GET] and [HEAD] requests for a path that names
    a file under the root are answered with it; everything else falls
    through to the next layer.  [root] maps request paths to contents: it
    holds the paths the layer answers with a file (a dot file, which the
    layer ignores, is not among them).  The layer redirects a path that
    names a directory; [public/] holds [client.js] and no directory, and
    the redirect is left out. *)
Definition express_static (root : gmap string string) (req : Req) : option Res :=
  match method req with
  | GET | HEAD =>
      match root !! path req with
      | Some content => Some (mkRes 200 (Some (File content)))
      | None => None
      end
  | _ => None
  end.

(** No layer answered. *)
Definition finalhandler : Res := mkRes 404 (Some NotFound).

(** A route registered for [GET] also answers [HEAD]. *)
Definition method_matches (registered requested : Method) : bool :=
  match registered, requested with
  | GET, GET | GET, HEAD | HEAD, HEAD | POST, POST | PUT, PUT
  | DELETE, DELETE | OPTIONS, OPTIONS | PATCH, PATCH => true
  | OtherMethod a, OtherMethod b => String.eqb a b
  | _, _ => false
  end.

Definition method_eqb (a b : Method) : bool :=
  match a, b with
  | GET, GET | HEAD, HEAD | POST, POST | PUT, PUT | DELETE, DELETE
  | OPTIONS, OPTIONS | PATCH, PATCH => true
  | OtherMethod x, OtherMethod y => String.eqb x y
  | _, _ => false
  end.

(** Route paths are matched without regard to the case of letters and to
    one trailing slash (the router's defaults: not case sensitive, not
    strict). *)
Definition toLowerCase_ascii (c : Ascii.ascii) : Ascii.ascii :=
  let n := Ascii.nat_of_ascii c in
  if Nat.leb 65 n && Nat.leb n 90 then Ascii.ascii_of_nat (n + 32) else c.

Fixpoint toLowerCase (s : string) : string :=
  match s with
  | EmptyString => EmptyString
  | String c rest => String (toLowerCase_ascii c) (toLowerCase rest)
  end.

Fixpoint ends_with_slash (s : string) : bool :=
  match s with
  | EmptyString => false
  | String c EmptyString => Nat.eqb (Ascii.nat_of_ascii c) 47
  | String _ rest => ends_with_slash rest
  end.

Definition path_matches (route pth : string) : bool :=
  String.eqb (toLowerCase pth) (toLowerCase route)
  || (if ends_with_slash route
      then String.eqb (toLowerCase pth ++ "/") (toLowerCase route)
      else String.eqb (toLowerCase pth) (toLowerCase route ++ "/")).

(** The methods a route contributes to the answer to [OPTIONS]. *)
Definition route_options (registered : Method) : list Method :=
  match registered with
  | GET => [GET; HEAD]
  | m => [m]
  end.

Fixpoint append_methods (options added : list Method) : list Method :=
  match added with
  | [] => options
  | m :: rest =>
      append_methods
        (if existsb (method_eqb m) options then options else options ++ [m])
        rest
  end.

(** The router: the first route registered for the path and the method
    runs.  For an [OPTIONS] request the methods of the routes registered
    for the path are collected, and sent with status 200 when no route
    answered; any other request no route answers reaches the final
    handler. *)
Fixpoint router {W} (routes : list (Method * string * (Req -> Res -> Async W Res)))
    (options : list Method) (req : Req) (res : Res) : Async W Res :=
  match routes with
  | [] =>
      ret (match options with
           | [] => finalhandler
           | _ => mkRes (statusCode res) (Some (Allowed options))
           end)
  | (m, p, handler) :: rest =>
      if path_matches p (path req)
      then if method_matches m (method req)
           then handler req res
           else router rest
                  (match method req with
                   | OPTIONS => append_methods options (route_options m)
                   | _ => options
                   end) req res
      else router rest options req res
  end.

(** The application: the static layer first, then the routes.  The JSON
    body parser registered between the two writes no response for a
    request of type [Req]; what it leaves is the [body] field. *)
Definition express {W} (root : gmap string string)
    (routes : list (Method * string * (Req -> Res -> Async W Res)))
    (req : Req) : Async W Res :=
  match express_static root req with
  | Some res => ret res
  | None => router routes [] req fresh
  end.

(* ===================================================================== *)
(** * server.js, platform revision *)
(* ===================================================================== *)

Module Server.
Section Server.

(** The processor's SDK ([require('stripe')], applied to the secret key and
    an optional configuration), the environment and the files under
    [public/]. *)
Context {W : Type}.
Variable stripe_sdk : jsval -> jsval -> Client W.
Variable env : gmap string string.
Variable public : gmap string string.

Definition stripe : Client W :=
  stripe_sdk (env_get env "STRIPE_SECRET_KEY") JUndefined.

(** [app.get('/')] *)
Definition get_index (req : Req) (res : Res) : Async W Res :=
  ret (render "index"
         {[ "publishableKey" := env_get env "STRIPE_PUBLISHABLE_KEY" ]} res).

(** [app.post('/create-payment-intent')] *)
Definition post_create_payment_intent (req : Req) (res : Res) : Async W Res :=
  let amount := get "amount" (body req) in
  let currency := get "currency" (body req) in
  let saveCard := get "saveCard" (body req) in
  try_catch
    (customer <- await stripe CustomersCreate ;;
     let options : obj :=
       {[ "amount" := amount;
          "currency" := js_or currency (JStr "gbp");
          "customer" := get "id" customer;
          "payment_method_types" := JArr [JStr "card"] ]} in
     let options :=
       if ToBoolean saveCard
       then assign "setup_future_usage" (JStr "off_session") options
       else options in
     paymentIntent <- await stripe (PaymentIntentsCreate options) ;;
     ret (send (JObj {[ "clientSecret" := get "client_secret" paymentIntent;
                        "customerId" := get "id" customer ]}) res))%async
    (fun e =>
       ret (send (JObj {[ "error" :=
                            JObj {[ "message" := get "message" e ]} ]})
              (status 400 res))).

(** [app.post('/create-setup-intent')] *)
Definition post_create_setup_intent (req : Req) (res : Res) : Async W Res :=
  try_catch
    (customer <- await stripe CustomersCreate ;;
     setupIntent <- await stripe
       (SetupIntentsCreate
          {[ "customer" := get "id" customer;
             "payment_method_types" := JArr [JStr "card"] ]}) ;;
     ret (send (JObj {[ "clientSecret" := get "client_secret" setupIntent;
                        "customerId" := get "id" customer ]}) res))%async
    (fun e =>
       ret (send (JObj {[ "error" :=
                            JObj {[ "message" := get "message" e ]} ]})
              (status 400 res))).

(** [app.post('/create-customer-setup-intent')] *)
Definition post_create_customer_setup_intent (req : Req) (res : Res)
  : Async W Res :=
  try_catch
    (customer <- await stripe CustomersCreate ;;
     setupIntent <- await stripe
       (SetupIntentsCreate
          {[ "customer" := get "id" customer;
             "payment_method_types" := JArr [JStr "card"] ]}) ;;
     ret (send (JObj {[ "clientSecret" := get "client_secret" setupIntent;
                        "customerId" := get "id" customer ]}) res))%async
    (fun e =>
       ret (send (JObj {[ "error" :=
                            JObj {[ "message" := get "message" e ]} ]})
              (status 400 res))).

(** The routes in registration order. *)
Definition routes : list (Method * string * (Req -> Res -> Async W Res)) :=
  [ (GET, "/", get_index);
    (POST, "/create-payment-intent", post_create_payment_intent);
    (POST, "/create-setup-intent", post_create_setup_intent);
    (POST, "/create-customer-setup-intent",
      post_create_customer_setup_intent) ].

(** [app.use(express.static('public'))], then the routes. *)
Definition app (req : Req) : Async W Res := express public routes req.

(** [process.env.PORT || 4242] *)
Definition PORT : jsval := js_or (env_get env "PORT") (js_int 4242).

End Server.
End Server.

(* ===================================================================== *)
(** * server.js, connected-account revision *)
(* ===================================================================== *)

Module ConnectServer.
Section ConnectServer.

Context {W : Type}.
Variable stripe_sdk : jsval -> jsval -> Client W.
Variable env : gmap string string.
Variable public : gmap string string.

(** The client acts on the connected account. *)
Definition stripe : Client W :=
  stripe_sdk (env_get env "STRIPE_SECRET_KEY")
    (JObj {[ "stripeAccount" := env_get env "STRIPE_CONNECTED_ACCOUNT_ID" ]}).

(** [app.get('/')] *)
Definition get_index (req : Req) (res : Res) : Async W Res :=
  ret (render "index"
         {[ "publishableKey" := env_get env "STRIPE_PUBLISHABLE_KEY";
            "connectedAccountId" :=
              env_get env "STRIPE_CONNECTED_ACCOUNT_ID" ]} res).

(** [app.post('/create-payment-intent')] *)
Definition post_create_payment_intent (req : Req) (res : Res) : Async W Res :=
  let amount := get "amount" (body req) in
  let currency := get "currency" (body req) in
  let saveCard := get "saveCard" (body req) in
  try_catch
    (customer <- await stripe CustomersCreate ;;
     let options : obj :=
       {[ "amount" := amount;
          "currency" := js_or currency (JStr "gbp");
          "customer" := get "id" customer;
          "payment_method_types" := JArr [JStr "card"] ]} in
     let options :=
       if ToBoolean saveCard
       then assign "setup_future_usage" (JStr "off_session") options
       else options in
     paymentIntent <- await stripe (PaymentIntentsCreate options) ;;
     ret (send (JObj {[ "clientSecret" := get "client_secret" paymentIntent;
                        "customerId" := get "id" customer ]}) res))%async
    (fun e =>
       ret (send (JObj {[ "error" :=
                            JObj {[ "message" := get "message" e ]} ]})
              (status 400 res))).

(** [app.post('/create-setup-intent')] *)
Definition post_create_setup_intent (req : Req) (res : Res) : Async W Res :=
  try_catch
    (customer <- await stripe CustomersCreate ;;
     setupIntent <- await stripe
       (SetupIntentsCreate
          {[ "customer" := get "id" customer;
             "payment_method_types" := JArr [JStr "card"] ]}) ;;
     ret (send (JObj {[ "clientSecret" := get "client_secret" setupIntent;
                        "customerId" := get "id" customer ]}) res))%async
    (fun e =>
       ret (send (JObj {[ "error" :=
                            JObj {[ "message" := get "message" e ]} ]})
              (status 400 res))).

(** [app.post('/create-customer-setup-intent')] *)
Definition post_create_customer_setup_intent (req : Req) (res : Res)
  : Async W Res :=
  try_catch
    (customer <- await stripe CustomersCreate ;;
     setupIntent <- await stripe
       (SetupIntentsCreate
          {[ "customer" := get "id" customer;
             "payment_method_types" := JArr [JStr "card"] ]}) ;;
     ret (send (JObj {[ "clientSecret" := get "client_secret" setupIntent;
                        "customerId" := get "id" customer ]}) res))%async
    (fun e =>
       ret (send (JObj {[ "error" :=
                            JObj {[ "message" := get "message" e ]} ]})
              (status 400 res))).

(** The routes in registration order. *)
Definition routes : list (Method * string * (Req -> Res -> Async W Res)) :=
  [ (GET, "/", get_index);
    (POST, "/create-payment-intent", post_create_payment_intent);
    (POST, "/create-setup-intent", post_create_setup_intent);
    (POST, "/create-customer-setup-intent",
      post_create_customer_setup_intent) ].

(** [app.use(express.static('public'))], then the routes. *)
Definition app (req : Req) : Async W Res := express public routes req.

(** [process.env.PORT || 4242] *)
Definition PORT : jsval := js_or (env_get env "PORT") (js_int 4242).

End ConnectServer.
End ConnectServer.

(* ===================================================================== *)
(** * Both revisions, side by side *)
(* ===================================================================== *)

Inductive Revision : Type := Platform | Connected.

(** The client a revision talks to. *)
Definition stripe_of {W} (rev : Revision) (stripe_sdk : jsval -> jsval -> Client W)
    (env : gmap string string) : Client W :=
  match rev with
  | Platform => Server.stripe stripe_sdk env
  | Connected => ConnectServer.stripe stripe_sdk env
  end.

(** The application a revision serves. *)
Definition server {W} (rev : Revision) (stripe_sdk : jsval -> jsval -> Client W)
    (env public : gmap string string) : Req -> Async W Res :=
  match rev with
  | Platform => Server.app stripe_sdk env public
  | Connected => ConnectServer.app stripe_sdk env public
  end.

(** The response written and the calls placed when a request is served
    against processor state [p]. *)
Definition response {W} (out : Completion Res * World W) : option Res :=
  match fst out with
  | Normal res => Some res
  | Throw _ => None
  end.

Definition calls {W} (out : Completion Res * World W) : list (Call * Settled) :=
  trace (snd out).

(** The error body every handler writes from its [catch] block. *)
Definition error_response (e : obj) : Res :=
  mkRes 400 (Some (Sent (JObj {[ "error" := JObj {[ "message" := get "message" e ]} ]}))).

(** The success body every handler writes. *)
Definition success_response (intent customer : obj) : Res :=
  mkRes 200 (Some (Sent (JObj {[ "clientSecret" := get "client_secret" intent;
                                 "customerId" := get "id" customer ]}))).

(* ===================================================================== *)
(** * A scripted test double for the processor *)
(* ===================================================================== *)

(** Every call consumes the next scripted settlement, whatever the method
    and arguments; an exhausted script rejects. *)
Definition scripted_next (script : list Settled) : Settled * list Settled :=
  match script with
  | r :: rest => (r, rest)
  | [] => (Rejected {[ "message" := JStr "script exhausted" ]}, [])
  end.

Definition scripted : Client (list Settled) :=
  {| customers_create := scripted_next;
     customers_del := fun _ => scripted_next;
     paymentIntents_create := fun _ => scripted_next;
     setupIntents_create := fun _ => scripted_next |}.

Definition scripted_sdk (key config : jsval) : Client (list Settled) := scripted.

(* ===================================================================== *)
(** * The handlers in direct style *)
(* ===================================================================== *)

(** The options object of [post_create_payment_intent] at the moment it is
    handed to [paymentIntents.create], as a function of the request body and
    of the customer just created. *)
Definition payment_options (body customer : obj) : obj :=
  let options : obj :=
    {[ "amount" := get "amount" body;
       "currency" := js_or (get "currency" body) (JStr "gbp");
       "customer" := get "id" customer;
       "payment_method_types" := JArr [JStr "card"] ]} in
  if ToBoolean (get "saveCard" body)
  then assign "setup_future_usage" (JStr "off_session") options
  else options.

(** The options object of the two setup-intent handlers. *)
Definition setup_options (customer : obj) : obj :=
  {[ "customer" := get "id" customer;
     "payment_method_types" := JArr [JStr "card"] ]}.

(** The broker contract all three handlers implement, with the monad
    unfolded: create a customer; on success create the intent
    [intent customer]; answer with the secret and the customer id, or with
    the first rejection.  [exec_post] below shows that each handler, as
    routed by its revision, runs exactly this. *)
Definition broker {W} (client : Client W) (intent : obj -> Call) (p : W)
  : Completion Res * World W :=
  match customers_create client p with
  | (Rejected e, p1) =>
      (Normal (error_response e), mkWorld p1 [(CustomersCreate, Rejected e)])
  | (Resolved customer, p1) =>
      match perform client (intent customer) p1 with
      | (Rejected e, p2) =>
          (Normal (error_response e),
           mkWorld p2 [(CustomersCreate, Resolved customer);
                       (intent customer, Rejected e)])
      | (Resolved i, p2) =>
          (Normal (success_response i customer),
           mkWorld p2 [(CustomersCreate, Resolved customer);
                       (intent customer, Resolved i)])
      end
  end.

(** A request served from an empty trace. *)
Definition serve {W} (rev : Revision) (stripe_sdk : jsval -> jsval -> Client W)
    (env public : gmap string string) (m : Method) (pth : string) (b : obj)
    (p : W) : Completion Res * World W :=
  run (server rev stripe_sdk env public (mkReq m pth b)) p.

(** The three intent routes. *)
Definition post_routes : list string :=
  [ "/create-payment-intent"; "/create-setup-intent";
    "/create-customer-setup-intent" ].

(** The intent call a route places once the customer exists. *)
Definition intent_of (pth : string) (b : obj) (customer : obj) : Call :=
  if String.eqb pth "/create-payment-intent"
  then PaymentIntentsCreate (payment_options b customer)
  else SetupIntentsCreate (setup_options customer).

(** A string value of positive length. *)
Definition nonempty_string (v : jsval) : bool :=
  match v with
  | JStr s => negb (String.eqb s "")
  | _ => false
  end.

(* ===================================================================== *)
(** * Sample requests and processor replies *)
(* ===================================================================== *)

(** The body the checkout page posts in pay-now mode. *)
Definition pay_now_body (saveCard : bool) : obj :=
  {[ "amount" := js_int 100; "currency" := JStr "gbp";
     "saveCard" := JBool saveCard ]}.

Definition customer_1 : obj := {[ "id" := JStr "cus_1" ]}.
Definition intent_1 : obj := {[ "client_secret" := JStr "pi_1_secret_1" ]}.
Definition invalid_integer : obj := {[ "message" := JStr "Invalid integer: abc" ]}.
Definition invalid_api_key : obj := {[ "message" := JStr "Invalid API Key provided" ]}.

(** The environment of a connected-account deployment. *)
Definition sample_env : gmap string string :=
  {[ "STRIPE_PUBLISHABLE_KEY" := "pk_test_1"; "STRIPE_SECRET_KEY" := "sk_test_1";
     "STRIPE_CONNECTED_ACCOUNT_ID" := "acct_1" ]}.

(** The files under [public/]. *)
Definition sample_public : gmap string string :=
  {[ "/client.js" := "initialize();"; "/style.css" := "" ]}.

(* ===================================================================== *)
(** * The page rendered by [GET /] *)
(* ===================================================================== *)

(** The locals each revision hands to the [index] view. *)
Definition page_locals (rev : Revision) (env : gmap string string) : obj :=
  match rev with
  | Platform => {[ "publishableKey" := env_get env "STRIPE_PUBLISHABLE_KEY" ]}
  | Connected =>
      {[ "publishableKey" := env_get env "STRIPE_PUBLISHABLE_KEY";
         "connectedAccountId" := env_get env "STRIPE_CONNECTED_ACCOUNT_ID" ]}
  end.

(** [process.env.PORT || 4242] of a revision. *)
Definition port_of (rev : Revision) (env : gmap string string) : jsval :=
  match rev with
  | Platform => Server.PORT env
  | Connected => ConnectServer.PORT env
  end.

(* ===================================================================== *)
(** * JSON on the wire *)
(* ===================================================================== *)

(** [JSON.parse(JSON.stringify(v))]: what arrives when [v] is sent as JSON.
    A property holding [undefined] is dropped, [undefined] inside an array
    and the non-finite numbers become [null], negative zero becomes zero;
    [undefined] itself has no JSON text. *)
Fixpoint json (v : jsval) : option jsval :=
  match v with
  | JUndefined => None
  | JNull => Some JNull
  | JBool b => Some (JBool b)
  | JNum (S754_finite s m e) => Some (JNum (S754_finite s m e))
  | JNum (S754_zero _) => Some (JNum (S754_zero false))
  | JNum _ => Some JNull
  | JStr s => Some (JStr s)
  | JArr l => Some (JArr (map (fun x => default JNull (json x)) l))
  | JObj m => Some (JObj (omap json m))
  end.

(* ===================================================================== *)
(** * client.js: the checkout page script *)
(* ===================================================================== *)

(** The script of the page, in its two revisions.  [Browser] holds the
    document, the script's globals and the functions both revisions have
    word for word ([checkUrlForSuccess], [loadPaymentElement], the submit
    listener, [showMessage], [setLoading]); [Client] and [ConnectClient]
    hold [initialize] and [updatePaymentMode] of each revision.  A function
    runs to completion: what the page receives while it awaits is taken to
    be handled after it. *)

Module Browser.

(** The elements of the page whose classes, text or [disabled] flag the
    script writes, by their [id]; the page is taken to have them all.  The
    radio buttons, the save-card checkbox and the content of
    [#payment-element] are fields of the document below. *)
Inductive Id : Type :=
| payment_main_container
| success_screen
| submit
| button_text
| save_card_option
| payment_message
| spinner.

Definition Id_eqb (a b : Id) : bool :=
  match a, b with
  | payment_main_container, payment_main_container
  | success_screen, success_screen
  | submit, submit
  | button_text, button_text
  | save_card_option, save_card_option
  | payment_message, payment_message
  | spinner, spinner => true
  | _, _ => false
  end.

Record Element : Type := mkElement {
  classList : gset string;
  textContent : jsval;     (* the value last assigned to [textContent] *)
  disabled : bool
}.

(** An [<input type="radio" name="paymentMode">]. *)
Record Radio : Type := mkRadio {
  checked : bool;
  value : string
}.

Record Document : Type := mkDocument {
  nodes : Id -> Element;
  radios : list Radio;                 (* getElementsByName('paymentMode') *)
  save_card_checkbox : bool;           (* #save-card-checkbox .checked *)
  payment_element : list obj;          (* what is mounted in #payment-element *)
  search : list (string * string);     (* the entries of location.search *)
  origin : string;
  pathname : string
}.

(** The script's top-level [let] bindings. *)
Record Globals : Type := mkGlobals {
  stripe : jsval;
  elements : jsval;
  currentMode : string
}.

(** What the script calls outside itself: the network and Stripe.js.
    Method calls carry the object they are invoked on. *)
Inductive Effect : Type :=
| StripeInit (key options : jsval)
| Fetch (endpoint method : string) (headers body : obj)
| ResponseJson (response : obj)
| StripeElements (instance options : obj)
| ElementsCreate (instance : obj) (type : string) (options : obj)
| Mount (paymentElement : obj) (selector : string)
| ConfirmPayment (instance options : obj)
| ConfirmSetup (instance options : obj).

(** The outside world over its state [N]: every call returns (or resolves
    to) an object, or throws (or rejects with) one. *)
Definition Env (N : Type) : Type := Effect -> N -> Settled * N.

(** A browser tab: the document, the script's globals, the pending
    [setTimeout] callbacks of [showMessage] (their delays, oldest first),
    the outside world, and the calls made on it with their outcome. *)
Record Tab (N : Type) : Type := mkTab {
  document : Document;
  globals : Globals;
  timers : list Z;
  outside : N;
  effects : list (Effect * Settled)
}.
Arguments mkTab {N}.
Arguments document {N}.
Arguments globals {N}.
Arguments timers {N}.
Arguments outside {N}.
Arguments effects {N}.

Definition Script (N A : Type) : Type := Tab N -> Completion A * Tab N.

Definition sret {N A} (a : A) : Script N A := fun t => (Normal a, t).

Definition sbind {N A B} (m : Script N A) (k : A -> Script N B) : Script N B :=
  fun t =>
    match m t with
    | (Normal a, t') => k a t'
    | (Throw e, t') => (Throw e, t')
    end.

Definition throw {N A} (e : obj) : Script N A := fun t => (Throw e, t).

(** [try { body } catch (e) { handler }] *)
Definition stry {N A} (body : Script N A) (handler : obj -> Script N A)
  : Script N A :=
  fun t =>
    match body t with
    | (Normal a, t') => (Normal a, t')
    | (Throw e, t') => handler e t'
    end.

(** A call to an [async] function whose promise is dropped: it runs, and a
    rejection goes unhandled. *)
Definition detached {N} (m : Script N unit) : Script N unit :=
  fun t => (Normal tt, snd (m t)).

Declare Scope script_scope.
Delimit Scope script_scope with script.
Notation "x <- m ;; k" := (sbind m (fun x => k))
  (at level 100, m at next level, right associativity) : script_scope.
Notation "m ;; k" := (sbind m (fun _ => k))
  (at level 100, right associativity) : script_scope.

Definition read {N A} (f : Tab N -> A) : Script N A := fun t => (Normal (f t), t).

Definition write_document {N} (f : Document -> Document) : Script N unit :=
  fun t => (Normal tt,
            mkTab (f (document t)) (globals t) (timers t) (outside t) (effects t)).

Definition write_globals {N} (f : Globals -> Globals) : Script N unit :=
  fun t => (Normal tt,
            mkTab (document t) (f (globals t)) (timers t) (outside t) (effects t)).

(** [setTimeout(callback, delay)] for the one callback the script has. *)
Definition setTimeout {N} (delay : Z) : Script N unit :=
  fun t => (Normal tt,
            mkTab (document t) (globals t) (timers t ++ [delay])%list (outside t)
              (effects t)).

(** The elements after [f] is applied to the one called [id]. *)
Definition update_node (id : Id) (f : Element -> Element) (els : Id -> Element)
  : Id -> Element :=
  fun i => if Id_eqb i id then f (els i) else els i.

Definition write_node {N} (id : Id) (f : Element -> Element) : Script N unit :=
  write_document (fun d =>
    mkDocument (update_node id f (nodes d))
      (radios d) (save_card_checkbox d) (payment_element d) (search d)
      (origin d) (pathname d)).

Definition classList_add {N} (id : Id) (c : string) : Script N unit :=
  write_node id (fun el =>
    mkElement ({[ c ]} ∪ classList el) (textContent el) (disabled el)).

Definition classList_remove {N} (id : Id) (c : string) : Script N unit :=
  write_node id (fun el =>
    mkElement (classList el ∖ {[ c ]}) (textContent el) (disabled el)).

Definition set_textContent {N} (id : Id) (v : jsval) : Script N unit :=
  write_node id (fun el => mkElement (classList el) v (disabled el)).

Definition set_disabled {N} (id : Id) (b : bool) : Script N unit :=
  write_node id (fun el => mkElement (classList el) (textContent el) b).

(** [#payment-element]: [innerHTML = ''] empties it, a mounted payment
    element is added to it. *)
Definition set_payment_element {N} (f : list obj -> list obj) : Script N unit :=
  write_document (fun d =>
    mkDocument (nodes d) (radios d) (save_card_checkbox d)
      (f (payment_element d)) (search d) (origin d) (pathname d)).

(** [new URLSearchParams(...).get(name)]: the first value, or [null]. *)
Definition URLSearchParams_get (name : string) (params : list (string * string))
  : jsval :=
  match find (fun kv => String.eqb (fst kv) name) params with
  | Some kv => JStr (snd kv)
  | None => JNull
  end.

(** [v === s] for a string literal [s]. *)
Definition strict_equals (v : jsval) (s : string) : bool :=
  match v with
  | JStr x => String.eqb x s
  | _ => false
  end.

Section Script.

(** The outside world, the exception the engine throws when a property of
    [undefined] or [null] is read or a non-function is called, and the
    text of a number. *)
Context {N : Type}.
Variable env : Env N.
Variable TypeError : obj.
Variable Number_toString : spec_float -> string.

(** ECMAScript [ToString], for a value appended to a string. *)
Fixpoint ToString (v : jsval) : string :=
  match v with
  | JUndefined => "undefined"
  | JNull => "null"
  | JBool true => "true"
  | JBool false => "false"
  | JNum x => Number_toString x
  | JStr s => s
  | JArr l =>
      String.concat ","
        (map (fun x => match x with
                       | JUndefined | JNull => ""
                       | _ => ToString x
                       end) l)
  | JObj _ => "[object Object]"
  end.

(** A call leaving the script: recorded, then its value or its exception. *)
Definition effect (e : Effect) : Script N obj :=
  fun t =>
    let '(r, n) := env e (outside t) in
    let t' := mkTab (document t) (globals t) (timers t) n
               (effects t ++ [(e, r)])%list in
    match r with
    | Resolved v => (Normal v, t')
    | Rejected x => (Throw x, t')
    end.

(** [receiver.method(...)]: only an object can carry the method. *)
Definition method_call (receiver : jsval) (call : obj -> Effect) : Script N obj :=
  match receiver with
  | JObj instance => effect (call instance)
  | _ => throw TypeError
  end.

(** [v.k] for a property no primitive has. *)
Definition member (k : string) (v : jsval) : Script N jsval :=
  match v with
  | JUndefined | JNull => throw TypeError
  | JObj o => sret (get k o)
  | _ => sret JUndefined
  end.

(** [showMessage(messageText)] *)
Definition showMessage (messageText : jsval) : Script N unit :=
  (classList_remove payment_message "hidden" ;;
   set_textContent payment_message messageText ;;
   setTimeout 4000)%script.

(** The function [showMessage] hands to [setTimeout]. *)
Definition hide_message : Script N unit :=
  (classList_add payment_message "hidden" ;;
   set_textContent payment_message (JStr ""))%script.

(** The oldest pending timer fires. *)
Definition timer_fires : Script N unit :=
  fun t =>
    match timers t with
    | [] => (Normal tt, t)
    | _ :: rest =>
        hide_message
          (mkTab (document t) (globals t) rest (outside t) (effects t))
    end.

(** [setLoading(isLoading)] *)
Definition setLoading (isLoading : bool) : Script N unit :=
  (if isLoading
   then (set_disabled submit true ;;
         classList_remove spinner "hidden" ;;
         classList_add button_text "hidden")
   else (set_disabled submit false ;;
         classList_add spinner "hidden" ;;
         classList_remove button_text "hidden"))%script.

(** [checkUrlForSuccess()] *)
Definition checkUrlForSuccess : Script N unit :=
  (urlParams <- read (fun t => search (document t)) ;;
   let redirectStatus := URLSearchParams_get "redirect_status" urlParams in
   if strict_equals redirectStatus "succeeded"
   then (classList_add payment_main_container "hidden" ;;
         classList_remove success_screen "hidden")
   else sret tt)%script.

(** [loadPaymentElement(endpoint, body)]; the [body] sent is the JSON text
    of the object given here. *)
Definition loadPaymentElement (endpoint : string) (body : obj) : Script N unit :=
  stry
    (response <- effect (Fetch endpoint "POST"
                           {[ "Content-Type" := JStr "application/json" ]} body) ;;
     data <- effect (ResponseJson response) ;;
     let clientSecret := get "clientSecret" data in
     let error := get "error" data in
     if ToBoolean error
     then (message <- member "message" error ;;
           showMessage message)
     else
       let appearance : obj :=
         {[ "theme" := JStr "night";
            "labels" := JStr "floating";
            "variables" :=
              JObj {[ "colorPrimary" := JStr "#d4af37";
                      "colorBackground" := JStr "#222";
                      "colorText" := JStr "#ffffff" ]} ]} in
       instance <- read (fun t => stripe (globals t)) ;;
       created <- method_call instance (fun s =>
                    StripeElements s {[ "appearance" := JObj appearance;
                                        "clientSecret" := clientSecret ]}) ;;
       write_globals (fun g => mkGlobals (stripe g) (JObj created) (currentMode g)) ;;
       let paymentElementOptions : obj :=
         {[ "layout" := JStr "tabs";
            "wallets" := JObj {[ "applePay" := JStr "auto";
                                 "googlePay" := JStr "auto" ]} ]} in
       paymentElement <- effect (ElementsCreate created "payment"
                                   paymentElementOptions) ;;
       set_payment_element (fun _ => []) ;;
       _ <- effect (Mount paymentElement "#payment-element") ;;
       set_payment_element (fun mounted => (mounted ++ [paymentElement])%list))%script
    (fun e =>
       showMessage (JStr ("Network Error: " ++ ToString (get "message" e)))).

(** The [submit] listener of [#payment-form]. *)
Definition on_submit : Script N unit :=
  (setLoading true ;;
   mode <- read (fun t => currentMode (globals t)) ;;
   instance <- read (fun t => stripe (globals t)) ;;
   els <- read (fun t => elements (globals t)) ;;
   return_url <- read (fun t => origin (document t) ++ pathname (document t)) ;;
   let options : obj :=
     {[ "elements" := els;
        "confirmParams" := JObj {[ "return_url" := JStr return_url ]} ]} in
   result <- (if String.eqb mode "pay_now"
              then method_call instance (fun s => ConfirmPayment s options)
              else method_call instance (fun s => ConfirmSetup s options)) ;;
   (if ToBoolean (get "error" result)
    then (message <- member "message" (get "error" result) ;;
          showMessage message)
    else showMessage (JStr "Success! Redirecting...")) ;;
   setLoading false)%script.

End Script.
End Browser.

(** client.js, platform revision *)
Module Client.
Import Browser.
Section Client.

Context {N : Type}.
Variable env : Browser.Env N.
Variable TypeError : obj.
Variable Number_toString : spec_float -> string.

(** The key the page template injects. *)
Variable STRIPE_PUBLISHABLE_KEY : jsval.

(** [updatePaymentMode()] *)
Definition updatePaymentMode : Browser.Script N unit :=
  (radios <- Browser.read (fun t => Browser.radios (Browser.document t)) ;;
   match find Browser.checked radios with
   | Some radio =>
       Browser.write_globals (fun g =>
         Browser.mkGlobals (Browser.stripe g) (Browser.elements g)
           (Browser.value radio))
   | None => Browser.sret tt
   end ;;
   isChecked <- Browser.read (fun t =>
                  Browser.save_card_checkbox (Browser.document t)) ;;
   currentMode <- Browser.read (fun t => Browser.currentMode (Browser.globals t)) ;;
   if String.eqb currentMode "pay_now"
   then (Browser.classList_remove Browser.save_card_option "hidden" ;;
         Browser.set_textContent Browser.button_text (JStr "Pay £1.00 Now") ;;
         Browser.loadPaymentElement env TypeError Number_toString
           "/create-payment-intent"
           {[ "amount" := js_int 100; "currency" := JStr "gbp";
              "saveCard" := JBool isChecked ]})
   else if String.eqb currentMode "save_card"
   then (Browser.classList_add Browser.save_card_option "hidden" ;;
         Browser.set_textContent Browser.button_text (JStr "Save Card on File") ;;
         Browser.loadPaymentElement env TypeError Number_toString
           "/create-customer-setup-intent" ∅)
   else (Browser.classList_add Browser.save_card_option "hidden" ;;
         Browser.set_textContent Browser.button_text
           (JStr "Reserve Spot (Pay £0.00)") ;;
         Browser.loadPaymentElement env TypeError Number_toString
           "/create-setup-intent" ∅))%script.

(** [initialize()] *)
Definition initialize : Browser.Script N unit :=
  (instance <- Browser.effect env
                 (Browser.StripeInit STRIPE_PUBLISHABLE_KEY JUndefined) ;;
   Browser.write_globals (fun g =>
     Browser.mkGlobals (JObj instance) (Browser.elements g)
       (Browser.currentMode g)) ;;
   Browser.checkUrlForSuccess ;;
   Browser.detached updatePaymentMode)%script.

End Client.
End Client.

(** client.js, connected-account revision *)
Module ConnectClient.
Import Browser.
Section ConnectClient.

Context {N : Type}.
Variable env : Browser.Env N.
Variable TypeError : obj.
Variable Number_toString : spec_float -> string.

(** The key and the account id the page template injects. *)
Variable STRIPE_PUBLISHABLE_KEY : jsval.
Variable STRIPE_CONNECTED_ACCOUNT_ID : jsval.

(** [updatePaymentMode()] *)
Definition updatePaymentMode : Browser.Script N unit :=
  (radios <- Browser.read (fun t => Browser.radios (Browser.document t)) ;;
   match find Browser.checked radios with
   | Some radio =>
       Browser.write_globals (fun g =>
         Browser.mkGlobals (Browser.stripe g) (Browser.elements g)
           (Browser.value radio))
   | None => Browser.sret tt
   end ;;
   isChecked <- Browser.read (fun t =>
                  Browser.save_card_checkbox (Browser.document t)) ;;
   currentMode <- Browser.read (fun t => Browser.currentMode (Browser.globals t)) ;;
   if String.eqb currentMode "pay_now"
   then (Browser.classList_remove Browser.save_card_option "hidden" ;;
         Browser.set_textContent Browser.button_text (JStr "Pay £5.00 Now") ;;
         Browser.loadPaymentElement env TypeError Number_toString
           "/create-payment-intent"
           {[ "amount" := js_int 500; "currency" := JStr "gbp";
              "saveCard" := JBool isChecked ]})
   else if String.eqb currentMode "save_card"
   then (Browser.classList_add Browser.save_card_option "hidden" ;;
         Browser.set_textContent Browser.button_text (JStr "Save Card on File") ;;
         Browser.loadPaymentElement env TypeError Number_toString
           "/create-customer-setup-intent" ∅)
   else (Browser.classList_add Browser.save_card_option "hidden" ;;
         Browser.set_textContent Browser.button_text
           (JStr "Reserve Spot (Pay £0.00)") ;;
         Browser.loadPaymentElement env TypeError Number_toString
           "/create-setup-intent" ∅))%script.

(** [initialize()] *)
Definition initialize : Browser.Script N unit :=
  (instance <- Browser.effect env
                 (Browser.StripeInit STRIPE_PUBLISHABLE_KEY
                    (JObj {[ "stripeAccount" := STRIPE_CONNECTED_ACCOUNT_ID ]})) ;;
   Browser.write_globals (fun g =>
     Browser.mkGlobals (JObj instance) (Browser.elements g)
       (Browser.currentMode g)) ;;
   Browser.checkUrlForSuccess ;;
   Browser.detached updatePaymentMode)%script.

End ConnectClient.
End ConnectClient.

(** [updatePaymentMode] and [initialize] of a revision of the script. *)
Definition updatePaymentMode_of {N} (rev : Revision) (env : Browser.Env N)
    (TypeError : obj) (Number_toString : spec_float -> string)
  : Browser.Script N unit :=
  match rev with
  | Platform => Client.updatePaymentMode env TypeError Number_toString
  | Connected => ConnectClient.updatePaymentMode env TypeError Number_toString
  end.


(* ===================================================================== *)
(** * The page and its server together *)
(* ===================================================================== *)

(** The [Response] a [fetch] resolves to for what the server wrote: its
    status, and under [body] the JSON value of what was sent. *)
Definition response_of (res : Res) : obj :=
  match payload res with
  | Some (Sent v) =>
      match json v with
      | Some v' => {[ "status" := js_int (statusCode res); "body" := v' ]}
      | None => {[ "status" := js_int (statusCode res) ]}
      end
  | _ => {[ "status" := js_int (statusCode res) ]}
  end.

(** The outside world of a page whose origin is a revision of the server:
    a [fetch] is served by the application (the JSON parser fills
    [req.body] from a body announced as JSON, and leaves it empty
    otherwise), [response.json()] yields the object sent or fails with
    [SyntaxError], and every other call goes to Stripe.js. *)
Definition online {S W} (rev : Revision) (stripe_sdk : jsval -> jsval -> Client W)
    (env public : gmap string string) (stripejs : Browser.Env S)
    (SyntaxError : obj) : Browser.Env (S * World W) :=
  fun e n =>
    match e with
    | Browser.Fetch endpoint m headers b =>
        let parsed : obj :=
          match headers !! "Content-Type" with
          | Some (JStr "application/json") => omap json b
          | _ => ∅
          end in
        let verb := if String.eqb m "POST" then POST else GET in
        match server rev stripe_sdk env public (mkReq verb endpoint parsed) (snd n) with
        | (Normal res, w) => (Resolved (response_of res), (fst n, w))
        | (Throw x, w) => (Rejected x, (fst n, w))
        end
    | Browser.ResponseJson response =>
        match response !! "body" with
        | Some (JObj o) => (Resolved o, n)
        | _ => (Rejected SyntaxError, n)
        end
    | _ =>
        let '(r, s) := stripejs e (fst n) in
        (r, (s, snd n))
    end.

(* ===================================================================== *)
(** * Sample pages and a scripted outside world *)
(* ===================================================================== *)

(** Every call takes the next scripted outcome. *)
Definition scripted_env : Browser.Env (list Settled) :=
  fun _ script => scripted_next script.

(** A Stripe.js that accepts every call and returns an empty object. *)
Definition obliging_stripejs : Browser.Env unit :=
  fun _ s => (Resolved ∅, s).

Definition sample_TypeError : obj :=
  {[ "message" := JStr "Cannot read properties of undefined" ]}.
Definition sample_SyntaxError : obj :=
  {[ "message" := JStr "Unexpected token" ]}.
Definition failed_to_fetch : obj := {[ "message" := JStr "Failed to fetch" ]}.
Definition card_declined : obj :=
  {[ "error" := JObj {[ "message" := JStr "Your card was declined." ]} ]}.

(** Only the decimal text of zero is needed by the samples. *)
Definition sample_Number_toString (x : spec_float) : string := "0".

Definition blank : Browser.Element := Browser.mkElement ∅ JNull false.
Definition concealed : Browser.Element := Browser.mkElement {[ "hidden" ]} JNull false.

(** The page as served: the success screen, the message and the spinner
    are hidden, the first radio button is checked. *)
Definition sample_document (query : list (string * string)) (mode : string)
    (save : bool) : Browser.Document :=
  Browser.mkDocument
    (fun i => match i with
              | Browser.success_screen | Browser.payment_message
              | Browser.spinner => concealed
              | _ => blank
              end)
    [ Browser.mkRadio (String.eqb mode "pay_now") "pay_now";
      Browser.mkRadio (String.eqb mode "setup_future") "setup_future";
      Browser.mkRadio (String.eqb mode "save_card") "save_card" ]
    save [] query "https://salon.example" "/".

Definition sample_tab {N} (query : list (string * string)) (mode : string)
    (save : bool) (n : N) : Browser.Tab N :=
  Browser.mkTab (sample_document query mode save)
    (Browser.mkGlobals (JObj ∅) JUndefined "pay_now") [] n [].

(** Whether an element carries the class [hidden]. *)
Definition hidden (el : Browser.Element) : bool :=
  bool_decide ("hidden" ∈ Browser.classList el).

(* ===================================================================== *)
(** * Routing *)
(* ===================================================================== *)

Section Routing.
Context {W : Type}.
Variable stripe_sdk : jsval -> jsval -> Client W.
Variables env public : gmap string string.

Lemma route_payment_platform b :
  server Platform stripe_sdk env public (mkReq POST "/create-payment-intent" b)
  = Server.post_create_payment_intent stripe_sdk env
      (mkReq POST "/create-payment-intent" b) fresh.
Proof. reflexivity. Qed.

Lemma route_payment_connected b :
  server Connected stripe_sdk env public (mkReq POST "/create-payment-intent" b)
  = ConnectServer.post_create_payment_intent stripe_sdk env
      (mkReq POST "/create-payment-intent" b) fresh.
Proof. reflexivity. Qed.

Lemma route_setup_platform b :
  server Platform stripe_sdk env public (mkReq POST "/create-setup-intent" b)
  = Server.post_create_setup_intent stripe_sdk env
      (mkReq POST "/create-setup-intent" b) fresh.
Proof. reflexivity. Qed.

Lemma route_setup_connected b :
  server Connected stripe_sdk env public (mkReq POST "/create-setup-intent" b)
  = ConnectServer.post_create_setup_intent stripe_sdk env
      (mkReq POST "/create-setup-intent" b) fresh.
Proof. reflexivity. Qed.

Lemma route_customer_setup_platform b :
  server Platform stripe_sdk env public
    (mkReq POST "/create-customer-setup-intent" b)
  = Server.post_create_customer_setup_intent stripe_sdk env
      (mkReq POST "/create-customer-setup-intent" b) fresh.
Proof. reflexivity. Qed.

Lemma route_customer_setup_connected b :
  server Connected stripe_sdk env public
    (mkReq POST "/create-customer-setup-intent" b)
  = ConnectServer.post_create_customer_setup_intent stripe_sdk env
      (mkReq POST "/create-customer-setup-intent" b) fresh.
Proof. reflexivity. Qed.

End Routing.

(* ===================================================================== *)
(** * Symbolic execution of the handlers *)
(* ===================================================================== *)

Ltac step_client :=
  match goal with
  | |- context [customers_create ?c ?p] =>
      destruct (customers_create c p) as [[?|?] ?]
  | |- context [paymentIntents_create ?c ?o ?p] =>
      destruct (paymentIntents_create c o p) as [[?|?] ?]
  | |- context [setupIntents_create ?c ?o ?p] =>
      destruct (setupIntents_create c o p) as [[?|?] ?]
  end.

Ltac exec_handler :=
  cbv [run try_catch bind await ret perform broker processor trace
       error_response success_response send status fresh statusCode payload];
  repeat (step_client; cbv beta iota zeta);
  reflexivity.

Section Execution.
Context {W : Type}.
Variable stripe_sdk : jsval -> jsval -> Client W.
Variables env public : gmap string string.

Lemma exec_payment rev b p :
  serve rev stripe_sdk env public POST "/create-payment-intent" b p
  = broker (stripe_of rev stripe_sdk env)
      (fun customer => PaymentIntentsCreate (payment_options b customer)) p.
Proof.
  unfold serve.
  destruct rev; [rewrite route_payment_platform | rewrite route_payment_connected];
    cbv [Server.post_create_payment_intent
         ConnectServer.post_create_payment_intent stripe_of payment_options body];
    exec_handler.
Qed.

Lemma exec_setup rev b p :
  serve rev stripe_sdk env public POST "/create-setup-intent" b p
  = broker (stripe_of rev stripe_sdk env)
      (fun customer => SetupIntentsCreate (setup_options customer)) p.
Proof.
  unfold serve.
  destruct rev; [rewrite route_setup_platform | rewrite route_setup_connected];
    cbv [Server.post_create_setup_intent
         ConnectServer.post_create_setup_intent stripe_of setup_options];
    exec_handler.
Qed.

Lemma exec_customer_setup rev b p :
  serve rev stripe_sdk env public POST "/create-customer-setup-intent" b p
  = broker (stripe_of rev stripe_sdk env)
      (fun customer => SetupIntentsCreate (setup_options customer)) p.
Proof.
  unfold serve.
  destruct rev;
    [rewrite route_customer_setup_platform
    | rewrite route_customer_setup_connected];
    cbv [Server.post_create_customer_setup_intent
         ConnectServer.post_create_customer_setup_intent stripe_of
         setup_options];
    exec_handler.
Qed.

(** Every intent route runs the broker with its own intent call. *)
Lemma exec_post rev pth b p :
  In pth post_routes ->
  serve rev stripe_sdk env public POST pth b p
  = broker (stripe_of rev stripe_sdk env) (intent_of pth b) p.
Proof.
  intros [<- | [<- | [<- | []]]].
  - apply exec_payment.
  - apply exec_setup.
  - apply exec_customer_setup.
Qed.

End Execution.

(* ===================================================================== *)
(** * Facts shared by the properties below *)
(* ===================================================================== *)

Section Broker.
Context {W : Type}.
Variable client : Client W.
Variable intent : obj -> Call.

(** The three ways a run of the broker can go. *)
Lemma broker_cases p :
  (exists e p1,
      customers_create client p = (Rejected e, p1) /\
      broker client intent p
      = (Normal (error_response e),
         mkWorld p1 [(CustomersCreate, Rejected e)]))
  \/ (exists cu p1 e p2,
      customers_create client p = (Resolved cu, p1) /\
      perform client (intent cu) p1 = (Rejected e, p2) /\
      broker client intent p
      = (Normal (error_response e),
         mkWorld p2 [(CustomersCreate, Resolved cu);
                     (intent cu, Rejected e)]))
  \/ (exists cu p1 i p2,
      customers_create client p = (Resolved cu, p1) /\
      perform client (intent cu) p1 = (Resolved i, p2) /\
      broker client intent p
      = (Normal (success_response i cu),
         mkWorld p2 [(CustomersCreate, Resolved cu);
                     (intent cu, Resolved i)])).
Proof.
  unfold broker.
  destruct (customers_create client p) as [[cu | e] p1] eqn:Hcu.
  - destruct (perform client (intent cu) p1) as [[i | e] p2] eqn:Hi.
    + right; right. exists cu, p1, i, p2. auto.
    + right; left. exists cu, p1, e, p2. auto.
  - left. exists e, p1. auto.
Qed.

(** The broker always answers. *)
Lemma broker_responds p : is_Some (response (broker client intent p)).
Proof.
  destruct (broker_cases p) as [(? & ? & _ & ->) | [(? & ? & ? & ? & _ & _ & ->)
                                | (? & ? & ? & ? & _ & _ & ->)]]; by eexists.
Qed.

End Broker.

Section Options.
Variables b cu : obj.

Lemma payment_options_amount :
  payment_options b cu !! "amount" = Some (get "amount" b).
Proof. unfold payment_options, assign. by destruct (ToBoolean _). Qed.

Lemma payment_options_currency :
  payment_options b cu !! "currency"
  = Some (js_or (get "currency" b) (JStr "gbp")).
Proof. unfold payment_options, assign. by destruct (ToBoolean _). Qed.

Lemma payment_options_customer :
  payment_options b cu !! "customer" = Some (get "id" cu).
Proof. unfold payment_options, assign. by destruct (ToBoolean _). Qed.

Lemma payment_options_methods :
  payment_options b cu !! "payment_method_types" = Some (JArr [JStr "card"]).
Proof. unfold payment_options, assign. by destruct (ToBoolean _). Qed.

Lemma payment_options_future_usage :
  payment_options b cu !! "setup_future_usage"
  = if ToBoolean (get "saveCard" b) then Some (JStr "off_session") else None.
Proof. unfold payment_options, assign. by destruct (ToBoolean _). Qed.

(** No property beyond the five above is ever present. *)
Lemma payment_options_dom :
  dom (payment_options b cu)
  = if ToBoolean (get "saveCard" b)
    then {[ "amount"; "currency"; "customer"; "payment_method_types";
            "setup_future_usage" ]}
    else {[ "amount"; "currency"; "customer"; "payment_method_types" ]}.
Proof.
  unfold payment_options, assign.
  destruct (ToBoolean _); rewrite ?dom_insert_L, dom_singleton_L; set_solver.
Qed.

End Options.

Section PaymentCall.
Context {W : Type}.
Variable stripe_sdk : jsval -> jsval -> Client W.
Variables env public : gmap string string.

(** Whatever options reach [paymentIntents.create] were built from the
    body and from a customer the processor returned. *)
Lemma payment_call_options rev b p options r :
  In (PaymentIntentsCreate options, r)
     (calls (serve rev stripe_sdk env public POST "/create-payment-intent" b p)) ->
  exists cu, options = payment_options b cu.
Proof.
  rewrite exec_payment. unfold calls.
  destruct (broker_cases (stripe_of rev stripe_sdk env)
              (fun c => PaymentIntentsCreate (payment_options b c)) p)
    as [(e & p1 & _ & ->) | [(cu & p1 & e & p2 & _ & _ & ->)
                            | (cu & p1 & i & p2 & _ & _ & ->)]];
    simpl; intros H.
  all: repeat match goal with
         | H : _ \/ _ |- _ => destruct H
         | H : (_, _) = (_, _) |- _ => inversion H; clear H; subst
         | H : False |- _ => destruct H
         end.
  all: eauto.
Qed.

(** Once the customer exists, the payment-intent creation is placed, with
    the options built from the body and that customer. *)
Lemma payment_call_placed rev b p cu p1 :
  customers_create (stripe_of rev stripe_sdk env) p = (Resolved cu, p1) ->
  exists r,
    calls (serve rev stripe_sdk env public POST "/create-payment-intent" b p)
    = [(CustomersCreate, Resolved cu);
       (PaymentIntentsCreate (payment_options b cu), r)].
Proof.
  intros Hcu. rewrite exec_payment. unfold broker, calls. rewrite Hcu.
  destruct (perform _ _ p1) as [[i | e] p2]; simpl; eauto.
Qed.

End PaymentCall.

(* ===================================================================== *)
(** * Properties of [POST /create-payment-intent] *)
(* ===================================================================== *)

(** C1. On [POST /create-payment-intent], once the customer exists an intent
    creation is placed, and the options of every payment-intent creation
    placed carry [setup_future_usage = 'off_session'] when the body has
    [saveCard: true], and no [setup_future_usage] property at all when
    [saveCard] is absent or [false]. *)
Theorem save_card_sets_future_usage :
  forall (W : Type) (stripe_sdk : jsval -> jsval -> Client W)
         (env public : gmap string string) (rev : Revision) (b : obj) (p : W),
    let out := serve rev stripe_sdk env public POST "/create-payment-intent" b p in
    (forall cu p1,
        customers_create (stripe_of rev stripe_sdk env) p = (Resolved cu, p1) ->
        exists options r, In (PaymentIntentsCreate options, r) (calls out))
    /\ (forall options r,
        In (PaymentIntentsCreate options, r) (calls out) ->
        (b !! "saveCard" = Some (JBool true) ->
         options !! "setup_future_usage" = Some (JStr "off_session"))
        /\ (b !! "saveCard" = None \/ b !! "saveCard" = Some (JBool false) ->
            options !! "setup_future_usage" = None)).
Proof.
  intros W stripe_sdk env public rev b p out. split.
  - intros cu p1 Hcu. subst out. rewrite exec_payment. unfold broker, calls.
    rewrite Hcu.
    destruct (perform _ _ p1) as [[i | e] p2]; simpl; eauto.
  - intros options r Hin.
    destruct (payment_call_options _ _ _ _ _ _ _ _ Hin) as [cu ->].
    rewrite payment_options_future_usage. unfold get.
    split.
    + by intros ->.
    + by intros [-> | ->].
Qed.

Lemma save_card_sets_future_usage_witness :
  payment_options (pay_now_body true) customer_1 !! "setup_future_usage"
  = Some (JStr "off_session").
Proof.
  refine (proj1 (proj2 (save_card_sets_future_usage _ scripted_sdk sample_env
                          sample_public Platform (pay_now_body true)
                          [Resolved customer_1; Resolved intent_1])
                   (payment_options (pay_now_body true) customer_1)
                   (Resolved intent_1) _) _).
  - right; left; reflexivity.
  - reflexivity.
Defined.

(** C3. On [POST /create-payment-intent], when the customer creation and the
    intent creation both resolve, the handler has placed exactly these two
    calls in this order; the intent's options are exactly the body's amount,
    the currency (or its default), the new customer's id and the card-only
    payment method list, plus the future-usage flag when [saveCard] is set;
    the response is a 200 whose [clientSecret] is the intent's
    [client_secret] and whose [customerId] is the customer's [id], each
    non-empty whenever the processor's value is.  The body is arbitrary, so
    this covers every positive integer amount, which is forwarded as is. *)
Theorem payment_intent_success :
  forall (W : Type) (stripe_sdk : jsval -> jsval -> Client W)
         (env public : gmap string string) (rev : Revision) (b : obj) (p : W)
         (cu : obj) (p1 : W) (i : obj) (p2 : W),
    let base : obj :=
      {[ "amount" := get "amount" b;
         "currency" := js_or (get "currency" b) (JStr "gbp");
         "customer" := get "id" cu;
         "payment_method_types" := JArr [JStr "card"] ]} in
    let options : obj :=
      if ToBoolean (get "saveCard" b)
      then <["setup_future_usage" := JStr "off_session"]> base
      else base in
    let answer : obj :=
      {[ "clientSecret" := get "client_secret" i; "customerId" := get "id" cu ]} in
    customers_create (stripe_of rev stripe_sdk env) p = (Resolved cu, p1) ->
    paymentIntents_create (stripe_of rev stripe_sdk env) options p1
    = (Resolved i, p2) ->
    serve rev stripe_sdk env public POST "/create-payment-intent" b p
    = (Normal (mkRes 200 (Some (Sent (JObj answer)))),
       mkWorld p2 [(CustomersCreate, Resolved cu);
                   (PaymentIntentsCreate options, Resolved i)])
    /\ get "clientSecret" answer = get "client_secret" i
    /\ get "customerId" answer = get "id" cu
    /\ (nonempty_string (get "client_secret" i) = true ->
        nonempty_string (get "clientSecret" answer) = true)
    /\ (nonempty_string (get "id" cu) = true ->
        nonempty_string (get "customerId" answer) = true)
    /\ (forall n : Z, (0 < n)%Z -> b !! "amount" = Some (js_int n) ->
        options !! "amount" = Some (js_int n)).
Proof.
  intros W stripe_sdk env public rev b p cu p1 i p2 base options answer Hcu Hi.
  assert (Hopt : options = payment_options b cu) by reflexivity.
  split; [| split; [reflexivity | split; [reflexivity | split; [auto | split; [auto |]]]]].
  - rewrite exec_payment. unfold broker. rewrite Hcu. simpl.
    rewrite <- Hopt, Hi. reflexivity.
  - intros n _ Hn. rewrite Hopt, payment_options_amount. unfold get.
    by rewrite Hn.
Qed.

Lemma payment_intent_success_witness :
  response (serve Platform scripted_sdk sample_env sample_public POST
              "/create-payment-intent" (pay_now_body true)
              [Resolved customer_1; Resolved intent_1])
  = Some (mkRes 200 (Some (Sent (JObj {[ "clientSecret" := JStr "pi_1_secret_1";
                                         "customerId" := JStr "cus_1" ]})))).
Proof.
  refine (f_equal response
            (proj1 (payment_intent_success _ scripted_sdk sample_env sample_public
                      Platform (pay_now_body true)
                      [Resolved customer_1; Resolved intent_1]
                      customer_1 [Resolved intent_1] intent_1 [] _ _))).
  - reflexivity.
  - reflexivity.
Defined.

(** C6. [POST /create-payment-intent] never validates [amount]: whatever the
    body holds under [amount] (nothing, a string, any number) is the
    [amount] of the options handed to the processor as soon as the customer
    exists; the handler always answers; and every answer other than a 200
    is the 400 built from a rejection of the processor recorded in the
    trace, never a rejection of the handler's own. *)
Theorem amount_forwarded_unchecked :
  forall (W : Type) (stripe_sdk : jsval -> jsval -> Client W)
         (env public : gmap string string) (rev : Revision) (b : obj) (p : W),
    let out := serve rev stripe_sdk env public POST "/create-payment-intent" b p in
    (forall cu p1,
        customers_create (stripe_of rev stripe_sdk env) p = (Resolved cu, p1) ->
        exists options r,
          calls out = [(CustomersCreate, Resolved cu);
                       (PaymentIntentsCreate options, r)]
          /\ options !! "amount" = Some (get "amount" b))
    /\ is_Some (response out)
    /\ (forall res,
        response out = Some res -> statusCode res <> 200%Z ->
        exists c e,
          In (c, Rejected e) (calls out)
          /\ res = mkRes 400 (Some (Sent (JObj {[ "error" :=
                     JObj {[ "message" := get "message" e ]} ]})))).
Proof.
  intros W stripe_sdk env public rev b p out. subst out.
  rewrite exec_payment.
  set (client := stripe_of rev stripe_sdk env).
  set (intent := fun customer => PaymentIntentsCreate (payment_options b customer)).
  split; [| split].
  - intros cu p1 Hcu. unfold broker, calls. rewrite Hcu.
    destruct (perform client (intent cu) p1) as [[i | e] p2]; simpl;
      eexists _, _; (split; [reflexivity | apply payment_options_amount]).
  - apply broker_responds.
  - intros res.
    destruct (broker_cases client intent p)
      as [(e & p1 & _ & ->) | [(cu & p1 & e & p2 & _ & _ & ->)
                              | (cu & p1 & i & p2 & _ & _ & ->)]];
      unfold response, calls; simpl; intros [= <-] Hst.
    + exists CustomersCreate, e. auto.
    + exists (intent cu), e. auto.
    + by destruct Hst.
Qed.

Lemma amount_forwarded_unchecked_witness :
  exists options r,
    calls (serve Connected scripted_sdk sample_env sample_public POST
             "/create-payment-intent" {[ "amount" := JStr "abc" ]}
             [Resolved customer_1; Rejected invalid_integer])
    = [(CustomersCreate, Resolved customer_1); (PaymentIntentsCreate options, r)]
    /\ options !! "amount" = Some (JStr "abc").
Proof.
  refine (proj1 (amount_forwarded_unchecked _ scripted_sdk sample_env
                   sample_public Connected {[ "amount" := JStr "abc" ]}
                   [Resolved customer_1; Rejected invalid_integer])
            customer_1 [Rejected invalid_integer] _).
  reflexivity.
Defined.

(** C7. On [POST /create-payment-intent], as soon as the customer exists a
    payment-intent creation is placed, and the options it is given (those
    of every payment-intent creation in the trace) carry the currency
    ['gbp'] when the body's [currency] is absent or the empty string, and
    carry [c] itself when the body's [currency] is a non-empty string
    [c]. *)
Theorem currency_defaults_to_gbp :
  forall (W : Type) (stripe_sdk : jsval -> jsval -> Client W)
         (env public : gmap string string) (rev : Revision) (b : obj) (p : W),
    let out := serve rev stripe_sdk env public POST "/create-payment-intent" b p in
    (forall cu p1,
        customers_create (stripe_of rev stripe_sdk env) p = (Resolved cu, p1) ->
        exists options r,
          calls out = [(CustomersCreate, Resolved cu);
                       (PaymentIntentsCreate options, r)]
          /\ (b !! "currency" = None \/ b !! "currency" = Some (JStr "") ->
              options !! "currency" = Some (JStr "gbp"))
          /\ (forall c : string,
              c <> "" -> b !! "currency" = Some (JStr c) ->
              options !! "currency" = Some (JStr c)))
    /\ (forall options r,
        In (PaymentIntentsCreate options, r) (calls out) ->
        (b !! "currency" = None \/ b !! "currency" = Some (JStr "") ->
         options !! "currency" = Some (JStr "gbp"))
        /\ (forall c : string,
            c <> "" -> b !! "currency" = Some (JStr c) ->
            options !! "currency" = Some (JStr c))).
Proof.
  intros W stripe_sdk env public rev b p out.
  assert (Hcurrency : forall cu,
    (b !! "currency" = None \/ b !! "currency" = Some (JStr "") ->
     payment_options b cu !! "currency" = Some (JStr "gbp"))
    /\ (forall c : string,
        c <> "" -> b !! "currency" = Some (JStr c) ->
        payment_options b cu !! "currency" = Some (JStr c))).
  { intros cu. rewrite payment_options_currency. unfold get, js_or. split.
    - by intros [-> | ->].
    - intros c Hc ->. simpl.
      destruct (String.eqb_spec c "") as [-> | _]; [by destruct Hc | done]. }
  split.
  - intros cu p1 Hcu.
    destruct (payment_call_placed stripe_sdk env public rev b p cu p1 Hcu)
      as [r Hcalls].
    exists (payment_options b cu), r. split; [exact Hcalls | apply Hcurrency].
  - intros options r Hin.
    destruct (payment_call_options _ _ _ _ _ _ _ _ Hin) as [cu ->].
    apply Hcurrency.
Qed.

Lemma currency_defaults_to_gbp_witness :
  exists options r,
    calls (serve Platform scripted_sdk sample_env sample_public POST
             "/create-payment-intent" {[ "amount" := js_int 100 ]}
             [Resolved customer_1; Resolved intent_1])
    = [(CustomersCreate, Resolved customer_1); (PaymentIntentsCreate options, r)]
    /\ options !! "currency" = Some (JStr "gbp").
Proof.
  destruct (proj1 (currency_defaults_to_gbp _ scripted_sdk sample_env sample_public
                     Platform {[ "amount" := js_int 100 ]}
                     [Resolved customer_1; Resolved intent_1])
              customer_1 [Resolved intent_1] eq_refl)
    as (options & r & Hcalls & Hdefault & _).
  exists options, r. split; [exact Hcalls |].
  apply Hdefault. left. reflexivity.
Defined.

(** C9. The [saveCard] test of [POST /create-payment-intent] is JavaScript
    truthiness: as soon as the customer exists a payment-intent creation
    is placed, and the options it is given (those of every payment-intent
    creation in the trace) carry [setup_future_usage = 'off_session']
    exactly when the body's [saveCard] is truthy, and no such property
    when it is falsy.  The string ["false"], every non-empty string and
    every non-zero finite number are truthy; [false], zero, [null], the
    empty string and an absent property are falsy. *)
Theorem save_card_is_truthiness :
  forall (W : Type) (stripe_sdk : jsval -> jsval -> Client W)
         (env public : gmap string string) (rev : Revision) (b : obj) (p : W),
    let out := serve rev stripe_sdk env public POST "/create-payment-intent" b p in
    (forall cu p1,
        customers_create (stripe_of rev stripe_sdk env) p = (Resolved cu, p1) ->
        exists options r,
          calls out = [(CustomersCreate, Resolved cu);
                       (PaymentIntentsCreate options, r)]
          /\ options !! "setup_future_usage"
             = if ToBoolean (get "saveCard" b)
               then Some (JStr "off_session") else None)
    /\ (forall options r,
        In (PaymentIntentsCreate options, r) (calls out) ->
        options !! "setup_future_usage"
        = if ToBoolean (get "saveCard" b)
          then Some (JStr "off_session") else None)
    /\ ToBoolean (JStr "false") = true
    /\ (forall s, s <> "" -> ToBoolean (JStr s) = true)
    /\ (forall sign m e, ToBoolean (JNum (S754_finite sign m e)) = true)
    /\ ToBoolean (JBool true) = true
    /\ ToBoolean (JBool false) = false
    /\ (forall sign, ToBoolean (JNum (S754_zero sign)) = false)
    /\ ToBoolean (js_int 0) = false
    /\ ToBoolean JNull = false
    /\ ToBoolean (JStr "") = false
    /\ (b !! "saveCard" = None -> ToBoolean (get "saveCard" b) = false).
Proof.
  intros W stripe_sdk env public rev b p out.
  split; [| split; [| repeat split; try reflexivity]].
  - intros cu p1 Hcu.
    destruct (payment_call_placed stripe_sdk env public rev b p cu p1 Hcu)
      as [r Hcalls].
    exists (payment_options b cu), r.
    split; [exact Hcalls | apply payment_options_future_usage].
  - intros options r Hin.
    destruct (payment_call_options _ _ _ _ _ _ _ _ Hin) as [cu ->].
    apply payment_options_future_usage.
  - intros s Hs. simpl.
    destruct (String.eqb_spec s "") as [-> | _]; [by destruct Hs | done].
  - unfold get. by intros ->.
Qed.

Lemma save_card_is_truthiness_witness :
  exists options r,
    calls (serve Platform scripted_sdk sample_env sample_public POST
             "/create-payment-intent"
             {[ "amount" := js_int 100; "saveCard" := JStr "false" ]}
             [Resolved customer_1; Resolved intent_1])
    = [(CustomersCreate, Resolved customer_1); (PaymentIntentsCreate options, r)]
    /\ options !! "setup_future_usage" = Some (JStr "off_session").
Proof.
  exact (proj1 (save_card_is_truthiness _ scripted_sdk sample_env sample_public
                  Platform
                  {[ "amount" := js_int 100; "saveCard" := JStr "false" ]}
                  [Resolved customer_1; Resolved intent_1])
           customer_1 [Resolved intent_1] eq_refl).
Defined.

(* ===================================================================== *)
(** * Properties of all three intent routes *)
(* ===================================================================== *)

Lemma intent_of_creates_intent pth b cu :
  exists o, intent_of pth b cu = PaymentIntentsCreate o
            \/ intent_of pth b cu = SetupIntentsCreate o.
Proof. unfold intent_of. destruct (String.eqb _ _); eauto. Qed.

Ltac invert_trace :=
  repeat match goal with
    | H : In _ (_ :: _) |- _ => destruct H
    | H : In _ [] |- _ => destruct H
    | H : _ \/ _ |- _ => destruct H
    | H : False |- _ => destruct H
    | H : (_, _) = (_, _) |- _ => inversion H; clear H; subst
    end.

(** C2. On each of the three intent routes, every exception the processor
    client throws is answered with status 400 and the body
    [{error: {message: e.message}}], and nothing is retried.  When the
    customer creation rejects with [e], that is the answer and the
    customer creation is the only call placed.  When the customer exists
    and the intent creation (the payment intent with the options built
    from the body, or the setup intent for the customer) rejects with [e],
    that is the answer and the trace is those two calls.  Conversely,
    whenever the trace holds a rejected call, it is the last call and the
    answer is that 400. *)
Theorem processor_failure_is_400 :
  forall (W : Type) (stripe_sdk : jsval -> jsval -> Client W)
         (env public : gmap string string) (rev : Revision) (b : obj) (p : W),
    let client := stripe_of rev stripe_sdk env in
    let failure (e : obj) : Res :=
      mkRes 400 (Some (Sent (JObj {[ "error" :=
        JObj {[ "message" := get "message" e ]} ]}))) in
    (forall pth e p1,
        In pth post_routes ->
        customers_create client p = (Rejected e, p1) ->
        serve rev stripe_sdk env public POST pth b p
        = (Normal (failure e), mkWorld p1 [(CustomersCreate, Rejected e)]))
    /\ (forall cu p1 e p2,
        let base : obj :=
          {[ "amount" := get "amount" b;
             "currency" := js_or (get "currency" b) (JStr "gbp");
             "customer" := get "id" cu;
             "payment_method_types" := JArr [JStr "card"] ]} in
        let options : obj :=
          if ToBoolean (get "saveCard" b)
          then <["setup_future_usage" := JStr "off_session"]> base
          else base in
        customers_create client p = (Resolved cu, p1) ->
        paymentIntents_create client options p1 = (Rejected e, p2) ->
        serve rev stripe_sdk env public POST "/create-payment-intent" b p
        = (Normal (failure e),
           mkWorld p2 [(CustomersCreate, Resolved cu);
                       (PaymentIntentsCreate options, Rejected e)]))
    /\ (forall pth cu p1 e p2,
        let options : obj :=
          {[ "customer" := get "id" cu;
             "payment_method_types" := JArr [JStr "card"] ]} in
        pth = "/create-setup-intent" \/ pth = "/create-customer-setup-intent" ->
        customers_create client p = (Resolved cu, p1) ->
        setupIntents_create client options p1 = (Rejected e, p2) ->
        serve rev stripe_sdk env public POST pth b p
        = (Normal (failure e),
           mkWorld p2 [(CustomersCreate, Resolved cu);
                       (SetupIntentsCreate options, Rejected e)]))
    /\ (forall pth c e,
        In pth post_routes ->
        let out := serve rev stripe_sdk env public POST pth b p in
        In (c, Rejected e) (calls out) ->
        response out = Some (failure e)
        /\ (c = CustomersCreate /\ calls out = [(CustomersCreate, Rejected e)]
            \/ exists cu o,
                (c = PaymentIntentsCreate o \/ c = SetupIntentsCreate o)
                /\ calls out = [(CustomersCreate, Resolved cu); (c, Rejected e)])).
Proof.
  intros W stripe_sdk env public rev b p client failure.
  split; [| split; [| split]].
  - intros pth e p1 Hpth Hcu.
    rewrite (exec_post _ _ _ _ _ _ _ Hpth). unfold broker.
    fold client. by rewrite Hcu.
  - intros cu p1 e p2 base options Hcu Hi.
    rewrite exec_payment. unfold broker. fold client. rewrite Hcu.
    change (payment_options b cu) with options.
    cbn [perform]. by rewrite Hi.
  - intros pth cu p1 e p2 options Hpth Hcu Hi.
    assert (Hexec : serve rev stripe_sdk env public POST pth b p
                    = broker client
                        (fun customer => SetupIntentsCreate (setup_options customer)) p)
      by (destruct Hpth as [-> | ->];
          [apply exec_setup | apply exec_customer_setup]).
    rewrite Hexec. unfold broker. rewrite Hcu.
    change (setup_options cu) with options.
    cbn [perform]. by rewrite Hi.
  - intros pth c e Hpth out. subst out.
    rewrite (exec_post _ _ _ _ _ _ _ Hpth).
    destruct (broker_cases (stripe_of rev stripe_sdk env) (intent_of pth b) p)
      as [(e' & p1 & _ & ->) | [(cu & p1 & e' & p2 & _ & _ & ->)
                               | (cu & p1 & i & p2 & _ & _ & ->)]];
      unfold calls, response; simpl; intros Hin; invert_trace.
    + split; [reflexivity | left; auto].
    + split; [reflexivity | right].
      destruct (intent_of_creates_intent pth b cu) as [o Ho].
      exists cu, o. auto.
Qed.

Lemma processor_failure_is_400_witness :
  serve Connected scripted_sdk sample_env sample_public POST
    "/create-setup-intent" ∅ [Rejected invalid_api_key]
  = (Normal (mkRes 400 (Some (Sent (JObj {[ "error" :=
               JObj {[ "message" := JStr "Invalid API Key provided" ]} ]})))),
     mkWorld [] [(CustomersCreate, Rejected invalid_api_key)]).
Proof.
  refine (proj1 (processor_failure_is_400 _ scripted_sdk sample_env sample_public
                   Connected ∅ [Rejected invalid_api_key])
            "/create-setup-intent" invalid_api_key [] _ _).
  - right; left; reflexivity.
  - reflexivity.
Defined.

(** C8. On each of the three intent routes, when the customer creation
    resolves and a later call rejects, the trace is exactly those two calls:
    nothing follows the rejected intent creation, in particular no deletion
    of the customer, and the answer is the error response. *)
Theorem orphaned_customer_left_in_place :
  forall (W : Type) (stripe_sdk : jsval -> jsval -> Client W)
         (env public : gmap string string) (rev : Revision) (pth : string)
         (b : obj) (p : W) (cu : obj) (c : Call) (e : obj),
    In pth post_routes ->
    let out := serve rev stripe_sdk env public POST pth b p in
    In (CustomersCreate, Resolved cu) (calls out) ->
    In (c, Rejected e) (calls out) ->
    calls out = [(CustomersCreate, Resolved cu); (c, Rejected e)]
    /\ (exists o, c = PaymentIntentsCreate o \/ c = SetupIntentsCreate o)
    /\ (forall x r, ~ In (CustomersDel x, r) (calls out))
    /\ response out
       = Some (mkRes 400 (Some (Sent (JObj {[ "error" :=
                 JObj {[ "message" := get "message" e ]} ]})))).
Proof.
  intros W stripe_sdk env public rev pth b p cu c e Hpth out. subst out.
  rewrite (exec_post _ _ _ _ _ _ _ Hpth).
  destruct (broker_cases (stripe_of rev stripe_sdk env) (intent_of pth b) p)
    as [(e' & p1 & _ & ->) | [(cu' & p1 & e' & p2 & _ & _ & ->)
                             | (cu' & p1 & i & p2 & _ & _ & ->)]];
    unfold calls, response; simpl; intros Hcu Hin; invert_trace.
  destruct (intent_of_creates_intent pth b cu) as [o Ho].
  split; [reflexivity | split; [by exists o | split; [| reflexivity]]].
  intros x r [Hdel | [Hdel | []]]; inversion Hdel as [[Hcall Hr]].
  destruct Ho as [Ho | Ho]; congruence.
Qed.

Lemma orphaned_customer_left_in_place_witness :
  calls (serve Platform scripted_sdk sample_env sample_public POST
           "/create-payment-intent" {[ "amount" := JStr "abc" ]}
           [Resolved customer_1; Rejected invalid_integer])
  = [(CustomersCreate, Resolved customer_1);
     (PaymentIntentsCreate (payment_options {[ "amount" := JStr "abc" ]} customer_1),
      Rejected invalid_integer)].
Proof.
  refine (proj1 (orphaned_customer_left_in_place _ scripted_sdk sample_env
                   sample_public Platform "/create-payment-intent"
                   {[ "amount" := JStr "abc" ]}
                   [Resolved customer_1; Rejected invalid_integer]
                   customer_1
                   (PaymentIntentsCreate
                      (payment_options {[ "amount" := JStr "abc" ]} customer_1))
                   invalid_integer _ _ _)).
  - left; reflexivity.
  - left; reflexivity.
  - right; left; reflexivity.
Defined.

(* ===================================================================== *)
(** * The two setup-intent routes *)
(* ===================================================================== *)

(** C4. In either revision, for every request body and every behaviour of
    the processor, [POST /create-setup-intent] and
    [POST /create-customer-setup-intent] end in the same response, the same
    processor state and the same trace: a customer creation, then (if it
    resolved) a setup-intent creation with [{customer: id, payment method
    card}]; the answer is the 200 [{clientSecret, customerId}] when both
    resolve and the 400 error body of the first rejection otherwise. *)
Theorem setup_routes_coincide :
  forall (W : Type) (stripe_sdk : jsval -> jsval -> Client W)
         (env public : gmap string string) (rev : Revision) (b : obj) (p : W),
    let reserve :=
      serve rev stripe_sdk env public POST "/create-setup-intent" b p in
    let save_card :=
      serve rev stripe_sdk env public POST "/create-customer-setup-intent" b p in
    reserve = save_card
    /\ ((exists e,
            calls reserve = [(CustomersCreate, Rejected e)]
            /\ response reserve = Some (error_response e))
        \/ (exists cu e,
            calls reserve
            = [(CustomersCreate, Resolved cu);
               (SetupIntentsCreate
                  {[ "customer" := get "id" cu;
                     "payment_method_types" := JArr [JStr "card"] ]},
                Rejected e)]
            /\ response reserve = Some (error_response e))
        \/ (exists cu i,
            calls reserve
            = [(CustomersCreate, Resolved cu);
               (SetupIntentsCreate
                  {[ "customer" := get "id" cu;
                     "payment_method_types" := JArr [JStr "card"] ]},
                Resolved i)]
            /\ response reserve
               = Some (mkRes 200 (Some (Sent (JObj
                   {[ "clientSecret" := get "client_secret" i;
                      "customerId" := get "id" cu ]})))))).
Proof.
  intros W stripe_sdk env public rev b p reserve save_card.
  subst reserve save_card.
  rewrite exec_setup, exec_customer_setup. split; [reflexivity |].
  destruct (broker_cases (stripe_of rev stripe_sdk env)
              (fun customer => SetupIntentsCreate (setup_options customer)) p)
    as [(e & p1 & _ & ->) | [(cu & p1 & e & p2 & _ & _ & ->)
                            | (cu & p1 & i & p2 & _ & _ & ->)]];
    unfold calls, response; simpl.
  - left. eauto.
  - right; left. eauto.
  - right; right. eauto.
Qed.

(** C10. In either revision, the two setup-intent routes ignore the request
    body: for any two bodies and the same processor state, a route places
    the same calls with the same arguments, leaves the processor in the
    same state and writes the same response. *)
Theorem setup_routes_ignore_body :
  forall (W : Type) (stripe_sdk : jsval -> jsval -> Client W)
         (env public : gmap string string) (rev : Revision) (pth : string)
         (b1 b2 : obj) (p : W),
    pth = "/create-setup-intent" \/ pth = "/create-customer-setup-intent" ->
    serve rev stripe_sdk env public POST pth b1 p
    = serve rev stripe_sdk env public POST pth b2 p.
Proof.
  intros W stripe_sdk env public rev pth b1 b2 p [-> | ->].
  - by rewrite !exec_setup.
  - by rewrite !exec_customer_setup.
Qed.

Lemma setup_routes_ignore_body_witness :
  serve Connected scripted_sdk sample_env sample_public POST
    "/create-customer-setup-intent" ∅ [Resolved customer_1; Resolved intent_1]
  = serve Connected scripted_sdk sample_env sample_public POST
      "/create-customer-setup-intent" (pay_now_body true)
      [Resolved customer_1; Resolved intent_1].
Proof.
  refine (setup_routes_ignore_body _ scripted_sdk sample_env sample_public
            Connected "/create-customer-setup-intent" ∅ (pay_now_body true)
            [Resolved customer_1; Resolved intent_1] _).
  right; reflexivity.
Defined.

(* ===================================================================== *)
(** * The page and configuration routes *)
(* ===================================================================== *)

(** In the connected-account revision the publishable key and the
    connected-account id reach the browser as locals of the page rendered
    by [GET /]. *)
Lemma connected_index_locals :
  forall (W : Type) (stripe_sdk : jsval -> jsval -> Client W)
         (env public : gmap string string) (b : obj) (p : W),
    public !! "/" = None ->
    serve Connected stripe_sdk env public GET "/" b p
    = (Normal (mkRes 200 (Some (Rendered "index"
         {[ "publishableKey" := env_get env "STRIPE_PUBLISHABLE_KEY";
            "connectedAccountId" := env_get env "STRIPE_CONNECTED_ACCOUNT_ID" ]}))),
       mkWorld p []).
Proof.
  intros W stripe_sdk env public b p Hroot.
  unfold serve, run, server, ConnectServer.app, express, express_static.
  simpl. rewrite Hroot. reflexivity.
Qed.

(** C5. In the connected-account revision no route answers [GET /config]:
    unless a file of that name lies under [public/], the request falls
    through every layer to the final handler, which answers 404 without the
    publishable key or the connected-account id, and without any processor
    call. *)
Theorem config_route_not_registered :
  forall (W : Type) (stripe_sdk : jsval -> jsval -> Client W)
         (env public : gmap string string) (b : obj) (p : W),
    public !! "/config" = None ->
    serve Connected stripe_sdk env public GET "/config" b p
    = (Normal (mkRes 404 (Some NotFound)), mkWorld p []).
Proof.
  intros W stripe_sdk env public b p Hfile.
  unfold serve, run, server, ConnectServer.app, express, express_static.
  simpl. rewrite Hfile. reflexivity.
Qed.

Lemma config_route_not_registered_witness :
  response (serve Connected scripted_sdk sample_env sample_public GET "/config" ∅
              [Resolved customer_1; Resolved intent_1])
  = Some (mkRes 404 (Some NotFound)).
Proof.
  refine (f_equal response
            (config_route_not_registered _ scripted_sdk sample_env sample_public ∅
               [Resolved customer_1; Resolved intent_1] _)).
  reflexivity.
Defined.

(* ===================================================================== *)
(** * The application as a whole *)
(* ===================================================================== *)

Lemma router_cons {W} m0 p0 (h : Req -> Res -> Async W Res) rest options req res :
  router ((m0, p0, h) :: rest) options req res
  = if path_matches p0 (path req)
    then if method_matches m0 (method req)
         then h req res
         else router rest
                (match method req with
                 | OPTIONS => append_methods options (route_options m0)
                 | _ => options
                 end) req res
    else router rest options req res.
Proof. reflexivity. Qed.

(** A request path matches a lower-case route with no trailing slash when,
    put in lower case, it is the route or the route followed by a slash. *)
Lemma path_matches_post route pth :
  In route post_routes ->
  path_matches route pth = true ->
  toLowerCase pth = route \/ toLowerCase pth = (route ++ "/")%string.
Proof.
  intros Hin.
  assert (E : ends_with_slash route = false /\ toLowerCase route = route)
    by (destruct Hin as [<- | [<- | [<- | []]]]; split; reflexivity).
  destruct E as [Eslash Elower].
  unfold path_matches. rewrite Eslash, Elower.
  rewrite orb_true_iff, !String.eqb_eq. exact id.
Qed.

(** No request path matches two of the intent routes. *)
Lemma path_matches_one route route' pth :
  In route post_routes -> In route' post_routes ->
  path_matches route pth = true -> path_matches route' pth = true ->
  route = route'.
Proof.
  intros Hin Hin' Hm Hm'.
  pose proof (path_matches_post _ _ Hin Hm) as H.
  pose proof (path_matches_post _ _ Hin' Hm') as H'.
  destruct Hin as [<- | [<- | [<- | []]]], Hin' as [<- | [<- | [<- | []]]];
    try reflexivity;
    destruct H as [H | H], H' as [H' | H']; rewrite H in H'; discriminate H'.
Qed.

Section Table.
Context {W : Type}.
Variable stripe_sdk : jsval -> jsval -> Client W.
Variables env public : gmap string string.

(** The handlers on any request. *)
Lemma handler_payment rev req p :
  run (match rev with
       | Platform => Server.post_create_payment_intent stripe_sdk env req fresh
       | Connected =>
           ConnectServer.post_create_payment_intent stripe_sdk env req fresh
       end) p
  = broker (stripe_of rev stripe_sdk env)
      (fun customer => PaymentIntentsCreate (payment_options (body req) customer)) p.
Proof.
  destruct rev;
    cbv [Server.post_create_payment_intent
         ConnectServer.post_create_payment_intent stripe_of payment_options];
    exec_handler.
Qed.

Lemma handler_setup rev req p :
  run (match rev with
       | Platform => Server.post_create_setup_intent stripe_sdk env req fresh
       | Connected =>
           ConnectServer.post_create_setup_intent stripe_sdk env req fresh
       end) p
  = broker (stripe_of rev stripe_sdk env)
      (fun customer => SetupIntentsCreate (setup_options customer)) p.
Proof.
  destruct rev;
    cbv [Server.post_create_setup_intent
         ConnectServer.post_create_setup_intent stripe_of setup_options];
    exec_handler.
Qed.

Lemma handler_customer_setup rev req p :
  run (match rev with
       | Platform =>
           Server.post_create_customer_setup_intent stripe_sdk env req fresh
       | Connected =>
           ConnectServer.post_create_customer_setup_intent stripe_sdk env req fresh
       end) p
  = broker (stripe_of rev stripe_sdk env)
      (fun customer => SetupIntentsCreate (setup_options customer)) p.
Proof.
  destruct rev;
    cbv [Server.post_create_customer_setup_intent
         ConnectServer.post_create_customer_setup_intent stripe_of
         setup_options];
    exec_handler.
Qed.

(** A route the request does not match is passed over. *)
Lemma router_skip m0 p0 (h : Req -> Res -> Async W Res) rest options req res :
  path_matches p0 (path req) && method_matches m0 (method req) = false ->
  exists options',
    router ((m0, p0, h) :: rest) options req res = router rest options' req res.
Proof.
  intros Hno. rewrite router_cons.
  destruct (path_matches p0 (path req)); [| by eexists].
  destruct (method_matches m0 (method req)); [discriminate Hno | by eexists].
Qed.

Lemma router_hit m0 p0 (h : Req -> Res -> Async W Res) rest options req res :
  path_matches p0 (path req) = true -> method_matches m0 (method req) = true ->
  router ((m0, p0, h) :: rest) options req res = h req res.
Proof. intros Hp Hm. by rewrite router_cons, Hp, Hm. Qed.

(** When no route is left the response is written at once. *)
Lemma router_nil options req res :
  exists res',
    router (W := W) [] options req res = ret res' /\ is_Some (payload res').
Proof. destruct options; eexists; (split; [reflexivity | by eexists]). Qed.

(** [POST] routes answer no other method. *)
Lemma router_post_only routes options req res :
  method req <> POST ->
  Forall (fun route => route.1.1 = POST) routes ->
  exists res',
    router (W := W) routes options req res = ret res' /\ is_Some (payload res').
Proof.
  intros Hm Hall. revert options.
  induction Hall as [| [[m0 p0] h] rest Hpost _ IH]; intros options.
  - apply router_nil.
  - simpl in Hpost. subst m0.
    destruct (router_skip POST p0 h rest options req res) as [options' ->];
      [| apply IH].
    destruct (method req); try done; apply andb_false_r.
Qed.

(** The index route writes its response at once. *)
Lemma get_index_quiet rev req :
  exists res',
    match rev with
    | Platform => Server.get_index (W := W) env req fresh
    | Connected => ConnectServer.get_index (W := W) env req fresh
    end = ret res' /\ is_Some (payload res').
Proof. destruct rev; eexists; (split; [reflexivity | by eexists]). Qed.

(** What a request comes to: a [POST] whose path matches an intent route
    runs that route's handler; any other request is answered without a call
    on the processor. *)
Lemma serve_cases rev m pth b p :
  let out := serve rev stripe_sdk env public m pth b p in
  (m = POST
   /\ exists route,
       In route post_routes /\ path_matches route pth = true
       /\ out = broker (stripe_of rev stripe_sdk env) (intent_of route b) p)
  \/ (~ (m = POST
         /\ exists route, In route post_routes /\ path_matches route pth = true)
      /\ exists res,
          out = (Normal res, mkWorld p []) /\ is_Some (payload res)).
Proof.
  intros out.
  set (req := mkReq m pth b).
  set (rest := match rev with
               | Platform => Server.routes stripe_sdk env
               | Connected => ConnectServer.routes stripe_sdk env
               end).
  assert (Hout : out = run (match express_static public req with
                            | Some res => ret res
                            | None => router rest [] req fresh
                            end) p) by (by destruct rev).
  clearbody out. subst out.
  destruct (express_static public req) as [res |] eqn:Hstatic.
  { right. unfold express_static in Hstatic. subst req. cbn [method path] in Hstatic.
    split.
    - intros [-> _]. discriminate Hstatic.
    - exists res. split; [reflexivity |].
      destruct m; try discriminate Hstatic;
        destruct (public !! pth); inversion Hstatic; by eexists. }
  assert (Hdec : m = POST \/ m <> POST)
    by (destruct m; first [left; reflexivity | right; discriminate]).
  destruct Hdec as [-> | Hm].
  - (* the index route is passed over *)
    assert (Hrest : exists options,
      router rest [] req fresh
      = router (match rev with
                | Platform =>
                    [ (POST, "/create-payment-intent",
                        Server.post_create_payment_intent stripe_sdk env);
                      (POST, "/create-setup-intent",
                        Server.post_create_setup_intent stripe_sdk env);
                      (POST, "/create-customer-setup-intent",
                        Server.post_create_customer_setup_intent stripe_sdk env) ]
                | Connected =>
                    [ (POST, "/create-payment-intent",
                        ConnectServer.post_create_payment_intent stripe_sdk env);
                      (POST, "/create-setup-intent",
                        ConnectServer.post_create_setup_intent stripe_sdk env);
                      (POST, "/create-customer-setup-intent",
                        ConnectServer.post_create_customer_setup_intent
                          stripe_sdk env) ]
                end) options req fresh).
    { subst rest. destruct rev; apply router_skip; apply andb_false_r. }
    destruct Hrest as [options ->]. clear rest.
    destruct (path_matches "/create-payment-intent" pth) eqn:H1.
    { left. split; [reflexivity |]. exists "/create-payment-intent".
      split; [left; reflexivity | split; [exact H1 |]].
      change (intent_of "/create-payment-intent" b)
        with (fun customer : obj =>
                PaymentIntentsCreate (payment_options (body req) customer)).
      rewrite <- (handler_payment rev req p).
      destruct rev; by rewrite router_hit. }
    assert (Hskip1 : exists options',
      router (match rev with
              | Platform =>
                  [ (POST, "/create-payment-intent",
                      Server.post_create_payment_intent stripe_sdk env);
                    (POST, "/create-setup-intent",
                      Server.post_create_setup_intent stripe_sdk env);
                    (POST, "/create-customer-setup-intent",
                      Server.post_create_customer_setup_intent stripe_sdk env) ]
              | Connected =>
                  [ (POST, "/create-payment-intent",
                      ConnectServer.post_create_payment_intent stripe_sdk env);
                    (POST, "/create-setup-intent",
                      ConnectServer.post_create_setup_intent stripe_sdk env);
                    (POST, "/create-customer-setup-intent",
                      ConnectServer.post_create_customer_setup_intent
                        stripe_sdk env) ]
              end) options req fresh
      = router (match rev with
                | Platform =>
                    [ (POST, "/create-setup-intent",
                        Server.post_create_setup_intent stripe_sdk env);
                      (POST, "/create-customer-setup-intent",
                        Server.post_create_customer_setup_intent stripe_sdk env) ]
                | Connected =>
                    [ (POST, "/create-setup-intent",
                        ConnectServer.post_create_setup_intent stripe_sdk env);
                      (POST, "/create-customer-setup-intent",
                        ConnectServer.post_create_customer_setup_intent
                          stripe_sdk env) ]
                end) options' req fresh).
    { destruct rev; apply router_skip; subst req; cbn [path]; by rewrite H1. }
    destruct Hskip1 as [options1 ->]. clear options.
    destruct (path_matches "/create-setup-intent" pth) eqn:H2.
    { left. split; [reflexivity |]. exists "/create-setup-intent".
      split; [right; left; reflexivity | split; [exact H2 |]].
      change (intent_of "/create-setup-intent" b)
        with (fun customer : obj => SetupIntentsCreate (setup_options customer)).
      rewrite <- (handler_setup rev req p).
      destruct rev; by rewrite router_hit. }
    assert (Hskip2 : exists options',
      router (match rev with
              | Platform =>
                  [ (POST, "/create-setup-intent",
                      Server.post_create_setup_intent stripe_sdk env);
                    (POST, "/create-customer-setup-intent",
                      Server.post_create_customer_setup_intent stripe_sdk env) ]
              | Connected =>
                  [ (POST, "/create-setup-intent",
                      ConnectServer.post_create_setup_intent stripe_sdk env);
                    (POST, "/create-customer-setup-intent",
                      ConnectServer.post_create_customer_setup_intent
                        stripe_sdk env) ]
              end) options1 req fresh
      = router (match rev with
                | Platform =>
                    [ (POST, "/create-customer-setup-intent",
                        Server.post_create_customer_setup_intent stripe_sdk env) ]
                | Connected =>
                    [ (POST, "/create-customer-setup-intent",
                        ConnectServer.post_create_customer_setup_intent
                          stripe_sdk env) ]
                end) options' req fresh).
    { destruct rev; apply router_skip; subst req; cbn [path]; by rewrite H2. }
    destruct Hskip2 as [options2 ->]. clear options1.
    destruct (path_matches "/create-customer-setup-intent" pth) eqn:H3.
    { left. split; [reflexivity |]. exists "/create-customer-setup-intent".
      split; [right; right; left; reflexivity | split; [exact H3 |]].
      change (intent_of "/create-customer-setup-intent" b)
        with (fun customer : obj => SetupIntentsCreate (setup_options customer)).
      rewrite <- (handler_customer_setup rev req p).
      destruct rev; by rewrite router_hit. }
    right. split.
    { intros [_ (route & [<- | [<- | [<- | []]]] & Hr)]; congruence. }
    assert (Hlast : exists res',
      router (match rev with
              | Platform =>
                  [ (POST, "/create-customer-setup-intent",
                      Server.post_create_customer_setup_intent stripe_sdk env) ]
              | Connected =>
                  [ (POST, "/create-customer-setup-intent",
                      ConnectServer.post_create_customer_setup_intent
                        stripe_sdk env) ]
              end) options2 req fresh = ret res' /\ is_Some (payload res')).
    { destruct rev;
        (edestruct router_skip as [options3 ->];
         [subst req; cbn [path]; by rewrite H3 | apply router_nil]). }
    destruct Hlast as (res' & -> & Hpay). by exists res'.
  - right. split; [tauto |].
    assert (Hquiet : exists res',
      router rest [] req fresh = ret res' /\ is_Some (payload res')).
    { destruct (path_matches "/" (path req) && method_matches GET (method req))
        eqn:Hindex.
      - apply andb_true_iff in Hindex. destruct Hindex as [Hp Hg].
        destruct (get_index_quiet rev req) as (res' & Hres & Hpay).
        exists res'. split; [| exact Hpay]. rewrite <- Hres.
        subst rest. unfold Server.routes, ConnectServer.routes.
        destruct rev; by rewrite router_hit.
      - subst rest. unfold Server.routes, ConnectServer.routes.
        destruct rev;
          (edestruct router_skip as [options' ->]; [exact Hindex |]);
          (apply router_post_only;
           [exact Hm | repeat constructor]). }
    destruct Hquiet as (res' & -> & Hpay). by exists res'.
Qed.

End Table.

(** X2. In either revision [GET /] (and [HEAD /]), when no file is served
    for [/], renders the view [index] with status 200 and places no call on
    the processor; the locals are the publishable key alone in the platform
    revision, and the publishable key with the connected-account id in the
    connected-account revision, each [undefined] when the environment
    variable is unset.  The secret key is never among them. *)
Theorem index_page_rendered :
  forall (W : Type) (stripe_sdk : jsval -> jsval -> Client W)
         (env public : gmap string string) (rev : Revision) (m : Method)
         (b : obj) (p : W),
    m = GET \/ m = HEAD ->
    public !! "/" = None ->
    let locals : obj :=
      match rev with
      | Platform => {[ "publishableKey" := env_get env "STRIPE_PUBLISHABLE_KEY" ]}
      | Connected =>
          {[ "publishableKey" := env_get env "STRIPE_PUBLISHABLE_KEY";
             "connectedAccountId" := env_get env "STRIPE_CONNECTED_ACCOUNT_ID" ]}
      end in
    serve rev stripe_sdk env public m "/" b p
    = (Normal (mkRes 200 (Some (Rendered "index" locals))), mkWorld p [])
    /\ (env !! "STRIPE_PUBLISHABLE_KEY" = None ->
        locals !! "publishableKey" = Some JUndefined)
    /\ (forall k v, locals !! k = Some v ->
        k = "publishableKey" \/ (rev = Connected /\ k = "connectedAccountId")).
Proof.
  intros W stripe_sdk env public rev m b p Hg Hfile locals.
  split; [| split].
  - unfold serve, run, server.
    destruct rev, Hg as [-> | ->];
      unfold Server.app, ConnectServer.app, express, express_static;
      cbn [method path]; rewrite Hfile; reflexivity.
  - intros Hkey. subst locals. unfold env_get. rewrite Hkey. by destruct rev.
  - intros k v. subst locals. destruct rev.
    + rewrite lookup_singleton_Some. intros [<- _]. by left.
    + rewrite lookup_insert_Some, lookup_singleton_Some.
      intros [[<- _] | [_ [<- _]]]; auto.
Qed.

Lemma index_page_rendered_witness :
  response (serve Connected scripted_sdk sample_env sample_public GET "/" ∅ [])
  = Some (mkRes 200 (Some (Rendered "index"
            {[ "publishableKey" := JStr "pk_test_1";
               "connectedAccountId" := JStr "acct_1" ]}))).
Proof.
  refine (f_equal response
            (proj1 (index_page_rendered _ scripted_sdk sample_env sample_public
                      Connected GET ∅ [] _ _))).
  - left; reflexivity.
  - reflexivity.
Defined.

(** X4. For every request whose body the JSON parser left as an object
    (any method, any path) and whatever the processor does, either
    revision places at most two calls on the processor: none, or a
    customer creation that rejects, or a customer creation that resolves
    followed by exactly one intent creation.  No customer is ever deleted.
    Calls are placed exactly for a [POST] whose path matches one of the
    three intent routes as the router matches paths, that is without
    regard to the case of letters and to one trailing slash: so
    [POST /CREATE-SETUP-INTENT] and [POST /create-setup-intent/] place
    calls too, and no [GET], [HEAD], [OPTIONS] or other request does. *)
Theorem at_most_two_processor_calls :
  forall (W : Type) (stripe_sdk : jsval -> jsval -> Client W)
         (env public : gmap string string) (rev : Revision) (m : Method)
         (pth : string) (b : obj) (p : W),
    let out := serve rev stripe_sdk env public m pth b p in
    (calls out = []
     \/ (exists e, calls out = [(CustomersCreate, Rejected e)])
     \/ (exists cu o r,
          calls out = [(CustomersCreate, Resolved cu); (PaymentIntentsCreate o, r)]
          \/ calls out = [(CustomersCreate, Resolved cu); (SetupIntentsCreate o, r)]))
    /\ (forall x r, ~ In (CustomersDel x, r) (calls out))
    /\ (calls out <> []
        <-> m = POST
            /\ exists route, In route post_routes /\ path_matches route pth = true)
    /\ path_matches "/create-setup-intent" "/CREATE-SETUP-INTENT" = true
    /\ path_matches "/create-setup-intent" "/create-setup-intent/" = true
    /\ path_matches "/create-setup-intent" "/create-setup-intent//" = false
    /\ path_matches "/create-setup-intent" "/create-setup-intent/x" = false.
Proof.
  intros W stripe_sdk env public rev m pth b p out.
  split; [| split; [| split; [| by repeat split]]];
    (destruct (serve_cases stripe_sdk env public rev m pth b p)
       as [(Hm & route & Hin & Hpath & Hout) | (Hno & res & Hout & _)];
     fold out in Hout; rewrite Hout;
     [ destruct (broker_cases (stripe_of rev stripe_sdk env) (intent_of route b) p)
         as [(e & p1 & _ & ->) | [(cu & p1 & e & p2 & _ & _ & ->)
                                 | (cu & p1 & i & p2 & _ & _ & ->)]];
       unfold calls; simpl
     | unfold calls; simpl ]).
  - right; left; eauto.
  - right; right.
    destruct (intent_of_creates_intent route b cu) as [o [-> | ->]];
      exists cu, o, (Rejected e); auto.
  - right; right.
    destruct (intent_of_creates_intent route b cu) as [o [-> | ->]];
      exists cu, o, (Resolved i); auto.
  - by left.
  - intros x r [H | []]; discriminate.
  - destruct (intent_of_creates_intent route b cu) as [o [-> | ->]];
      intros x r [H | [H | []]]; discriminate.
  - destruct (intent_of_creates_intent route b cu) as [o [-> | ->]];
      intros x r [H | [H | []]]; discriminate.
  - intros x r [].
  - split; [intros _; split; [exact Hm | by exists route] | done].
  - split; [intros _; split; [exact Hm | by exists route] | done].
  - split; [intros _; split; [exact Hm | by exists route] | done].
  - split; [done | intros H; by destruct Hno].
Qed.

(** X5. In either revision a [POST] whose path matches an intent route
    (whatever the case of its letters, with or without one trailing
    slash) and whose body the JSON parser left as an object is always
    answered by that route's handler, whatever the processor does: no
    exception escapes, a JSON body is sent, and the status is 200 or 400.
    It is 400 exactly when a call on the processor rejected, and 200
    exactly when the customer creation and the intent creation both
    resolved. *)
Theorem intent_request_is_answered :
  forall (W : Type) (stripe_sdk : jsval -> jsval -> Client W)
         (env public : gmap string string) (rev : Revision)
         (route pth : string) (b : obj) (p : W),
    In route post_routes ->
    path_matches route pth = true ->
    let out := serve rev stripe_sdk env public POST pth b p in
    out = broker (stripe_of rev stripe_sdk env) (intent_of route b) p
    /\ exists res v,
        fst out = Normal res
        /\ payload res = Some (Sent v)
        /\ (statusCode res = 200 \/ statusCode res = 400)%Z
        /\ (statusCode res = 400%Z
            <-> exists c e, In (c, Rejected e) (calls out))
        /\ (statusCode res = 200%Z
            <-> exists cu i,
                  calls out = [(CustomersCreate, Resolved cu);
                               (intent_of route b cu, Resolved i)]).
Proof.
  intros W stripe_sdk env public rev route pth b p Hin Hpath out.
  assert (Hout : out = broker (stripe_of rev stripe_sdk env) (intent_of route b) p).
  { destruct (serve_cases stripe_sdk env public rev POST pth b p)
      as [(_ & route' & Hin' & Hpath' & Hout) | (Hno & _)].
    - by rewrite (path_matches_one route route' pth Hin Hin' Hpath Hpath').
    - destruct Hno. eauto. }
  split; [exact Hout |]. rewrite Hout.
  destruct (broker_cases (stripe_of rev stripe_sdk env) (intent_of route b) p)
    as [(e & p1 & _ & ->) | [(cu & p1 & e & p2 & _ & _ & ->)
                            | (cu & p1 & i & p2 & _ & _ & ->)]];
    unfold calls; simpl; do 2 eexists; (split; [reflexivity |]); simpl;
    (split; [reflexivity |]); (split; [auto |]).
  - split; [split; [intros _; exists CustomersCreate, e; auto | done] |].
    split; [done | intros (cu & i & H); discriminate H].
  - split; [split; [intros _; exists (intent_of route b cu), e; auto | done] |].
    split; [done | intros (cu' & i & H); discriminate H].
  - split; [split; [done | intros (c & e & [H | [H | []]]); discriminate] |].
    split; [intros _; eauto | done].
Qed.

Lemma intent_request_is_answered_witness :
  serve Platform scripted_sdk sample_env sample_public POST
    "/Create-Setup-Intent/" ∅ [Rejected invalid_api_key]
  = (Normal (mkRes 400 (Some (Sent (JObj {[ "error" :=
               JObj {[ "message" := JStr "Invalid API Key provided" ]} ]})))),
     mkWorld [] [(CustomersCreate, Rejected invalid_api_key)]).
Proof.
  refine (proj1 (intent_request_is_answered _ scripted_sdk sample_env
                   sample_public Platform "/create-setup-intent"
                   "/Create-Setup-Intent/" ∅ [Rejected invalid_api_key] _ _)).
  - right; left; reflexivity.
  - reflexivity.
Defined.

Lemma broker_ext {W} (client : Client W) (intent1 intent2 : obj -> Call) p :
  (forall cu, intent1 cu = intent2 cu) ->
  broker client intent1 p = broker client intent2 p.
Proof.
  intros Hext. unfold broker.
  destruct (customers_create client p) as [[cu | e] p1]; [| reflexivity].
  rewrite (Hext cu). reflexivity.
Qed.

(** X6. [POST /create-payment-intent] reads three properties of the body
    and nothing else: two bodies that agree on [amount], [currency] and
    [saveCard] lead to the same calls with the same options, the same
    processor state and the same response, whatever else they hold (a
    [customer], a [payment_method_types], a [setup_future_usage] of their
    own are never passed on). *)
Theorem payment_reads_three_fields :
  forall (W : Type) (stripe_sdk : jsval -> jsval -> Client W)
         (env public : gmap string string) (rev : Revision) (b1 b2 : obj) (p : W),
    get "amount" b1 = get "amount" b2 ->
    get "currency" b1 = get "currency" b2 ->
    get "saveCard" b1 = get "saveCard" b2 ->
    serve rev stripe_sdk env public POST "/create-payment-intent" b1 p
    = serve rev stripe_sdk env public POST "/create-payment-intent" b2 p.
Proof.
  intros W stripe_sdk env public rev b1 b2 p Ha Hc Hs.
  rewrite !exec_payment. apply broker_ext. intros cu.
  unfold payment_options. by rewrite Ha, Hc, Hs.
Qed.

Lemma payment_reads_three_fields_witness :
  serve Platform scripted_sdk sample_env sample_public POST "/create-payment-intent"
    (pay_now_body false) [Resolved customer_1; Resolved intent_1]
  = serve Platform scripted_sdk sample_env sample_public POST "/create-payment-intent"
      (<["setup_future_usage" := JStr "off_session"]>
         (<["customer" := JStr "cus_other"]> (pay_now_body false)))
      [Resolved customer_1; Resolved intent_1].
Proof.
  refine (payment_reads_three_fields _ scripted_sdk sample_env sample_public
            Platform (pay_now_body false)
            (<["setup_future_usage" := JStr "off_session"]>
               (<["customer" := JStr "cus_other"]> (pay_now_body false)))
            [Resolved customer_1; Resolved intent_1] _ _ _); reflexivity.
Defined.

(** X7. The currency default of [POST /create-payment-intent] is a
    truthiness test, not a type check: as soon as the customer exists a
    payment-intent creation is placed, and the options it is given (those
    of every payment-intent creation in the trace) carry ['gbp'] whenever
    the body's [currency] is falsy ([null], [false], zero as well as absent
    or empty), and carry the body's value itself, unconverted, whenever it
    is truthy (a number, an array or an object as well as a non-empty
    string). *)
Theorem currency_test_is_truthiness :
  forall (W : Type) (stripe_sdk : jsval -> jsval -> Client W)
         (env public : gmap string string) (rev : Revision) (b : obj) (p : W),
    let out := serve rev stripe_sdk env public POST "/create-payment-intent" b p in
    (forall cu p1,
        customers_create (stripe_of rev stripe_sdk env) p = (Resolved cu, p1) ->
        exists options r,
          calls out = [(CustomersCreate, Resolved cu);
                       (PaymentIntentsCreate options, r)]
          /\ options !! "currency"
             = Some (if ToBoolean (get "currency" b)
                     then get "currency" b else JStr "gbp"))
    /\ (forall options r,
        In (PaymentIntentsCreate options, r) (calls out) ->
        options !! "currency"
        = Some (if ToBoolean (get "currency" b)
                then get "currency" b else JStr "gbp"))
    /\ (forall v, In v [JNull; JBool false; JNum (S754_zero false); JStr ""] ->
        ToBoolean v = false)
    /\ (forall sign m e l o,
        ToBoolean (JNum (S754_finite sign m e)) = true
        /\ ToBoolean (JArr l) = true /\ ToBoolean (JObj o) = true).
Proof.
  intros W stripe_sdk env public rev b p out. split; [| split; [| split]].
  - intros cu p1 Hcu.
    destruct (payment_call_placed stripe_sdk env public rev b p cu p1 Hcu)
      as [r Hcalls].
    exists (payment_options b cu), r.
    split; [exact Hcalls | apply payment_options_currency].
  - intros options r Hin.
    destruct (payment_call_options _ _ _ _ _ _ _ _ Hin) as [cu ->].
    apply payment_options_currency.
  - intros v [<- | [<- | [<- | [<- | []]]]]; reflexivity.
  - intros; repeat split.
Qed.

(** X8. The listening port is [process.env.PORT || 4242] in both
    revisions: the variable's text when it is set and not empty (so
    [PORT=0] listens on ["0"], a string), and the number 4242 when it is
    unset or set to the empty string. *)
Theorem port_defaults_to_4242 :
  forall (env : gmap string string) (rev : Revision),
    port_of rev env
    = match env !! "PORT" with
      | Some "" | None => js_int 4242
      | Some s => JStr s
      end.
Proof.
  intros env rev.
  destruct rev; unfold port_of, Server.PORT, ConnectServer.PORT, js_or, env_get;
    destruct (env !! "PORT") as [[| a s] |]; reflexivity.
Qed.

(** X9. The two revisions of the server differ on the intent routes only
    in the client they talk to: whenever the SDK yields the same client
    with and without the [stripeAccount] option, both revisions produce
    the same calls, processor state and response on every intent route. *)
Theorem revisions_agree_on_intents :
  forall (W : Type) (stripe_sdk : jsval -> jsval -> Client W)
         (env public : gmap string string) (pth : string) (b : obj) (p : W),
    In pth post_routes ->
    stripe_sdk (env_get env "STRIPE_SECRET_KEY") JUndefined
    = stripe_sdk (env_get env "STRIPE_SECRET_KEY")
        (JObj {[ "stripeAccount" := env_get env "STRIPE_CONNECTED_ACCOUNT_ID" ]}) ->
    serve Platform stripe_sdk env public POST pth b p
    = serve Connected stripe_sdk env public POST pth b p.
Proof.
  intros W stripe_sdk env public pth b p Hpth Hsame.
  rewrite !(exec_post _ _ _ _ _ _ _ Hpth).
  unfold stripe_of, Server.stripe, ConnectServer.stripe. by rewrite Hsame.
Qed.

Lemma revisions_agree_on_intents_witness :
  serve Platform scripted_sdk sample_env sample_public POST "/create-setup-intent" ∅
    [Resolved customer_1; Rejected invalid_api_key]
  = serve Connected scripted_sdk sample_env sample_public POST "/create-setup-intent" ∅
      [Resolved customer_1; Rejected invalid_api_key].
Proof.
  refine (revisions_agree_on_intents _ scripted_sdk sample_env sample_public
            "/create-setup-intent" ∅ [Resolved customer_1; Rejected invalid_api_key]
            _ _).
  - right; left; reflexivity.
  - reflexivity.
Defined.

(* ===================================================================== *)
(** * The checkout page script *)
(* ===================================================================== *)

Ltac script_unfold :=
  cbv [Browser.loadPaymentElement Browser.on_submit Browser.checkUrlForSuccess
       Browser.setLoading Browser.showMessage Browser.hide_message
       Browser.timer_fires Browser.detached
       Browser.stry Browser.sbind Browser.sret Browser.throw Browser.read
       Browser.effect Browser.method_call Browser.member
       Browser.classList_add Browser.classList_remove Browser.set_textContent
       Browser.set_disabled Browser.set_payment_element Browser.setTimeout
       Browser.write_node Browser.write_document Browser.write_globals
       Browser.document Browser.globals Browser.timers Browser.outside
       Browser.effects Browser.nodes Browser.radios Browser.save_card_checkbox
       Browser.payment_element Browser.search Browser.origin Browser.pathname
       Browser.stripe Browser.elements Browser.currentMode
       fst snd].

(** Read an element, by name, off a chain of updates. *)
Ltac node_eval :=
  cbv [Browser.update_node Browser.Id_eqb Browser.classList Browser.textContent
       Browser.disabled hidden].

Ltac frame_nodes :=
  let i := fresh "i" in
  intros i; intros; destruct i; try done; node_eval; reflexivity.

(** The headers [loadPaymentElement] sends. *)
Lemma json_headers_lookup :
  ({[ "Content-Type" := JStr "application/json" ]} : obj) !! "Content-Type"
  = Some (JStr "application/json").
Proof. reflexivity. Qed.

Section Loading.
Context {N : Type}.
Variable env : Browser.Env N.
Variable TypeError : obj.
Variable Number_toString : spec_float -> string.

(** X10. [loadPaymentElement], when every call it places succeeds and the
    answer carries no (truthy) [error]: the calls are, in this order, the
    [POST] of the JSON body, the reading of the answer, [stripe.elements]
    with the answer's [clientSecret], the creation of the [payment]
    element and its mounting; [elements] is the new instance; and
    [#payment-element] holds the new payment element alone, whatever was
    mounted there before.  No message is shown. *)
Theorem load_mounts_one_form :
  forall (endpoint : string) (b : obj) (t : Browser.Tab N)
         (instance response data created paymentElement mounted : obj)
         (n1 n2 n3 n4 n5 : N),
    let fetch :=
      Browser.Fetch endpoint "POST"
        {[ "Content-Type" := JStr "application/json" ]} b in
    let elements_call :=
      Browser.StripeElements instance
        {[ "appearance" :=
             JObj {[ "theme" := JStr "night"; "labels" := JStr "floating";
                     "variables" :=
                       JObj {[ "colorPrimary" := JStr "#d4af37";
                               "colorBackground" := JStr "#222";
                               "colorText" := JStr "#ffffff" ]} ]};
           "clientSecret" := get "clientSecret" data ]} in
    let create_call :=
      Browser.ElementsCreate created "payment"
        {[ "layout" := JStr "tabs";
           "wallets" := JObj {[ "applePay" := JStr "auto";
                                "googlePay" := JStr "auto" ]} ]} in
    Browser.stripe (Browser.globals t) = JObj instance ->
    env fetch (Browser.outside t) = (Resolved response, n1) ->
    env (Browser.ResponseJson response) n1 = (Resolved data, n2) ->
    ToBoolean (get "error" data) = false ->
    env elements_call n2 = (Resolved created, n3) ->
    env create_call n3 = (Resolved paymentElement, n4) ->
    env (Browser.Mount paymentElement "#payment-element") n4
    = (Resolved mounted, n5) ->
    let out :=
      Browser.loadPaymentElement env TypeError Number_toString endpoint b t in
    fst out = Normal tt
    /\ Browser.effects (snd out)
       = (Browser.effects t
          ++ [ (fetch, Resolved response);
               (Browser.ResponseJson response, Resolved data);
               (elements_call, Resolved created);
               (create_call, Resolved paymentElement);
               (Browser.Mount paymentElement "#payment-element",
                Resolved mounted) ])%list
    /\ Browser.elements (Browser.globals (snd out)) = JObj created
    /\ Browser.payment_element (Browser.document (snd out)) = [paymentElement]
    /\ Browser.nodes (Browser.document (snd out)) = Browser.nodes (Browser.document t)
    /\ Browser.timers (snd out) = Browser.timers t
    /\ Browser.outside (snd out) = n5.
Proof.
  intros endpoint b t instance response data created paymentElement mounted
    n1 n2 n3 n4 n5 fetch elements_call create_call
    Hstripe Hfetch Hjson Herror Helements Hcreate Hmount out.
  subst out fetch elements_call create_call.
  destruct t as [[nodes radios box mounted0 search origin pathname]
                   [stripe0 elements0 mode] timers n effects].
  simpl in Hstripe, Hfetch. subst stripe0.
  script_unfold.
  rewrite Hfetch. cbv beta iota zeta.
  rewrite Hjson. cbv beta iota zeta.
  rewrite Herror. cbv beta iota zeta.
  rewrite Helements. cbv beta iota zeta.
  rewrite Hcreate. cbv beta iota zeta.
  rewrite Hmount. cbv beta iota zeta.
  rewrite <- !app_assoc. simpl.
  repeat split.
Qed.

End Loading.

Lemma hidden_after_remove (s : gset string) :
  bool_decide ("hidden" ∈ s ∖ {[ "hidden" ]}) = false.
Proof.
  apply bool_decide_eq_false.
  rewrite elem_of_difference, elem_of_singleton. tauto.
Qed.

Lemma hidden_after_add (s : gset string) :
  bool_decide ("hidden" ∈ ({[ "hidden" ]} ∪ s : gset string)) = true.
Proof.
  apply bool_decide_eq_true.
  rewrite elem_of_union, elem_of_singleton. tauto.
Qed.

Ltac step_env env :=
  match goal with
  | |- context [env ?e ?n] =>
      let r := fresh "r" in
      let n' := fresh "n" in
      let H := fresh "Henv" in
      destruct (env e n) as [[r | r] n'] eqn:H; cbv beta iota zeta
  end.

Ltac close_trace :=
  repeat match goal with
    | H : In _ (_ :: _) |- _ => destruct H
    | H : In _ [] |- _ => destruct H
    | H : _ \/ _ |- _ => destruct H
    | H : False |- _ => destruct H
    end;
  simplify_eq.

Ltac split_last :=
  first [ by eexists [] | by eexists [_] | by eexists [_; _]
        | by eexists [_; _; _] | by eexists [_; _; _; _] ].

Ltac load_leaf :=
  cbv beta iota zeta;
  split; [reflexivity |]; split; [reflexivity |]; split; [reflexivity |];
  split; [frame_nodes |];
  eexists _, _; rewrite <- ?app_assoc; cbn [app];
  split; [reflexivity |];
  split; [unfold not; intros ? ? ? ? ? ?; close_trace |];
  intros ? ? ?; close_trace;
  (split; [split_last |];
   node_eval;
   split; [reflexivity | split; [apply hidden_after_remove | reflexivity]]).

Ltac load_frame_leaf :=
  cbv beta iota zeta;
  do 5 (split; [reflexivity |]);
  first
    [ left; reflexivity
    | right; left; reflexivity
    | right; right; eexists _, _, _; split; [| reflexivity];
      rewrite <- ?app_assoc; cbn [app];
      apply in_or_app; right; do 3 right; left; reflexivity ].

Section LoadOutcome.
Context {N : Type}.
Variable env : Browser.Env N.
Variable TypeError : obj.
Variable Number_toString : spec_float -> string.

(** Everything [loadPaymentElement] can come to. *)
Lemma load_outcome (endpoint : string) (b : obj) (t : Browser.Tab N) :
  let fetch :=
    Browser.Fetch endpoint "POST"
      {[ "Content-Type" := JStr "application/json" ]} b in
  let out :=
    Browser.loadPaymentElement env TypeError Number_toString endpoint b t in
  fst out = Normal tt
  /\ Browser.currentMode (Browser.globals (snd out))
     = Browser.currentMode (Browser.globals t)
  /\ Browser.stripe (Browser.globals (snd out)) = Browser.stripe (Browser.globals t)
  /\ (forall i, i <> Browser.payment_message ->
      Browser.nodes (Browser.document (snd out)) i
      = Browser.nodes (Browser.document t) i)
  /\ exists r more,
      Browser.effects (snd out) = (Browser.effects t ++ (fetch, r) :: more)%list
      /\ (forall ep m h b' r', ~ In (Browser.Fetch ep m h b', r') more)
      /\ (forall eff e,
          In (eff, Rejected e) ((fetch, r) :: more) ->
          (exists before, (fetch, r) :: more = (before ++ [(eff, Rejected e)])%list)
          /\ Browser.textContent
               (Browser.nodes (Browser.document (snd out)) Browser.payment_message)
             = JStr ("Network Error: "
                     ++ Browser.ToString Number_toString (get "message" e))
          /\ hidden (Browser.nodes (Browser.document (snd out))
                       Browser.payment_message) = false
          /\ Browser.timers (snd out) = (Browser.timers t ++ [4000%Z])%list).
Proof.
  intros fetch out. subst out fetch.
  destruct t as [[nodes radios box mounted0 search origin pathname]
                   [stripe0 elements0 mode] timers n effects].
  script_unfold.
  step_env env; [step_env env |]; [| load_leaf | load_leaf].
  destruct (ToBoolean (get "error" r0)) eqn:Herr.
  - destruct (get "error" r0) eqn:Hval; try discriminate Herr; load_leaf.
  - destruct stripe0; try load_leaf.
    step_env env; [step_env env; [step_env env |] |]; load_leaf.
Qed.

(** What [loadPaymentElement] leaves of the document outside the seven
    elements above: only the content of [#payment-element] can change, and
    it is then empty or holds the one payment element just created. *)
Lemma load_document_frame (endpoint : string) (b : obj) (t : Browser.Tab N) :
  let out :=
    Browser.loadPaymentElement env TypeError Number_toString endpoint b t in
  Browser.radios (Browser.document (snd out)) = Browser.radios (Browser.document t)
  /\ Browser.save_card_checkbox (Browser.document (snd out))
     = Browser.save_card_checkbox (Browser.document t)
  /\ Browser.search (Browser.document (snd out)) = Browser.search (Browser.document t)
  /\ Browser.origin (Browser.document (snd out)) = Browser.origin (Browser.document t)
  /\ Browser.pathname (Browser.document (snd out))
     = Browser.pathname (Browser.document t)
  /\ (Browser.payment_element (Browser.document (snd out))
      = Browser.payment_element (Browser.document t)
      \/ Browser.payment_element (Browser.document (snd out)) = []
      \/ exists instance options paymentElement,
           In (Browser.ElementsCreate instance "payment" options,
               Resolved paymentElement) (Browser.effects (snd out))
           /\ Browser.payment_element (Browser.document (snd out))
              = [paymentElement]).
Proof.
  intros out. subst out.
  destruct t as [[nodes radios box mounted0 search origin pathname]
                   [stripe0 elements0 mode] timers n effects].
  script_unfold.
  step_env env; [step_env env |]; [| load_frame_leaf | load_frame_leaf].
  destruct (ToBoolean (get "error" r0)) eqn:Herr.
  - destruct (get "error" r0) eqn:Hval; try discriminate Herr; load_frame_leaf.
  - destruct stripe0; try load_frame_leaf.
    step_env env; [step_env env; [step_env env |] |]; load_frame_leaf.
Qed.

End LoadOutcome.

Section Messages.
Context {N : Type}.
Variable env : Browser.Env N.
Variable TypeError : obj.
Variable Number_toString : spec_float -> string.

(** X11. [loadPaymentElement], when the server's answer carries a truthy
    [error]: the message element shows [error.message] ([undefined] when
    the error is not an object) and one timer is set; Stripe.js is not
    called, [elements] keeps its earlier value and whatever was mounted in
    [#payment-element] stays mounted. *)
Theorem load_shows_server_error :
  forall (endpoint : string) (b : obj) (t : Browser.Tab N)
         (response data : obj) (n1 n2 : N),
    let fetch :=
      Browser.Fetch endpoint "POST"
        {[ "Content-Type" := JStr "application/json" ]} b in
    env fetch (Browser.outside t) = (Resolved response, n1) ->
    env (Browser.ResponseJson response) n1 = (Resolved data, n2) ->
    ToBoolean (get "error" data) = true ->
    let out :=
      Browser.loadPaymentElement env TypeError Number_toString endpoint b t in
    let message := Browser.nodes (Browser.document (snd out)) Browser.payment_message in
    fst out = Normal tt
    /\ Browser.effects (snd out)
       = (Browser.effects t
          ++ [ (fetch, Resolved response);
               (Browser.ResponseJson response, Resolved data) ])%list
    /\ Browser.textContent message
       = match get "error" data with
         | JObj o => get "message" o
         | _ => JUndefined
         end
    /\ hidden message = false
    /\ Browser.timers (snd out) = (Browser.timers t ++ [4000%Z])%list
    /\ Browser.globals (snd out) = Browser.globals t
    /\ Browser.payment_element (Browser.document (snd out))
       = Browser.payment_element (Browser.document t).
Proof.
  intros endpoint b t response data n1 n2 fetch Hfetch Hjson Herror out message.
  subst message out fetch.
  destruct t as [[nodes radios box mounted0 search origin pathname]
                   [stripe0 elements0 mode] timers n effects].
  simpl in Hfetch.
  script_unfold.
  rewrite Hfetch. cbv beta iota zeta.
  rewrite Hjson. cbv beta iota zeta.
  rewrite Herror. cbv beta iota zeta.
  destruct (get "error" data) eqn:Hval; try discriminate Herror;
    cbv beta iota zeta; rewrite <- ?app_assoc; cbn [app];
    node_eval;
    (split; [reflexivity | split; [reflexivity | split; [reflexivity |]]]);
    (split; [apply hidden_after_remove | repeat split]).
Qed.

(** X12. [loadPaymentElement] never throws, whatever the network and
    Stripe.js do.  It places exactly one [fetch], as its first call: a
    [POST] of the body with a JSON content type.  When a call it placed
    rejects or throws with [e], that call is its last, and the message
    element shows ["Network Error: "] followed by [e.message], with one
    timer set. *)
Theorem load_failure_is_network_error :
  forall (endpoint : string) (b : obj) (t : Browser.Tab N),
    let fetch :=
      Browser.Fetch endpoint "POST"
        {[ "Content-Type" := JStr "application/json" ]} b in
    let out :=
      Browser.loadPaymentElement env TypeError Number_toString endpoint b t in
    let message := Browser.nodes (Browser.document (snd out)) Browser.payment_message in
    fst out = Normal tt
    /\ exists r more,
        Browser.effects (snd out) = (Browser.effects t ++ (fetch, r) :: more)%list
        /\ (forall ep m h b' r', ~ In (Browser.Fetch ep m h b', r') more)
        /\ (forall eff e,
            In (eff, Rejected e) ((fetch, r) :: more) ->
            (exists before,
                (fetch, r) :: more = (before ++ [(eff, Rejected e)])%list)
            /\ Browser.textContent message
               = JStr ("Network Error: "
                       ++ Browser.ToString Number_toString (get "message" e))
            /\ hidden message = false
            /\ Browser.timers (snd out) = (Browser.timers t ++ [4000%Z])%list).
Proof.
  intros endpoint b t fetch out message.
  destruct (load_outcome env TypeError Number_toString endpoint b t)
    as (Hnormal & _ & _ & _ & r & more & Heff & Hone & Hrej).
  split; [exact Hnormal |]. exists r, more. auto.
Qed.

End Messages.

Lemma load_shows_server_error_witness :
  Browser.textContent
    (Browser.nodes
       (Browser.document
          (snd (Browser.loadPaymentElement scripted_env sample_TypeError
                  sample_Number_toString "/create-setup-intent" ∅
                  (sample_tab [] "setup_future" false
                     [Resolved ∅;
                      Resolved {[ "error" := JObj invalid_api_key ]}]))))
       Browser.payment_message)
  = JStr "Invalid API Key provided".
Proof.
  refine (proj1 (proj2 (proj2
            (load_shows_server_error scripted_env sample_TypeError
               sample_Number_toString "/create-setup-intent" ∅
               (sample_tab [] "setup_future" false
                  [Resolved ∅; Resolved {[ "error" := JObj invalid_api_key ]}])
               ∅ {[ "error" := JObj invalid_api_key ]}
               [Resolved {[ "error" := JObj invalid_api_key ]}] [] _ _ _)))).
  - reflexivity.
  - reflexivity.
  - reflexivity.
Defined.

Lemma load_mounts_one_form_witness :
  Browser.payment_element
    (Browser.document
       (snd (Browser.loadPaymentElement scripted_env sample_TypeError
               sample_Number_toString "/create-setup-intent" ∅
               (sample_tab [] "setup_future" false
                  [Resolved ∅; Resolved {[ "clientSecret" := JStr "seti_1_secret_1" ]};
                   Resolved ∅; Resolved {[ "type" := JStr "payment" ]};
                   Resolved ∅]))))
  = [ {[ "type" := JStr "payment" ]} ].
Proof.
  refine (proj1 (proj2 (proj2 (proj2
            (load_mounts_one_form scripted_env sample_TypeError
               sample_Number_toString "/create-setup-intent" ∅
               (sample_tab [] "setup_future" false
                  [Resolved ∅; Resolved {[ "clientSecret" := JStr "seti_1_secret_1" ]};
                   Resolved ∅; Resolved {[ "type" := JStr "payment" ]};
                   Resolved ∅])
               ∅ ∅ {[ "clientSecret" := JStr "seti_1_secret_1" ]} ∅
               {[ "type" := JStr "payment" ]} ∅
               [Resolved {[ "clientSecret" := JStr "seti_1_secret_1" ]};
                Resolved ∅; Resolved {[ "type" := JStr "payment" ]}; Resolved ∅]
               [Resolved ∅; Resolved {[ "type" := JStr "payment" ]}; Resolved ∅]
               [Resolved {[ "type" := JStr "payment" ]}; Resolved ∅]
               [Resolved ∅] [] _ _ _ _ _ _ _))))); reflexivity.
Defined.

(* ===================================================================== *)
(** * Choosing the mode *)
(* ===================================================================== *)

Ltac update_unfold :=
  cbv [updatePaymentMode_of Client.updatePaymentMode ConnectClient.updatePaymentMode
       Browser.sbind Browser.sret Browser.read
       Browser.classList_add Browser.classList_remove Browser.set_textContent
       Browser.write_node Browser.write_document Browser.write_globals
       Browser.document Browser.globals Browser.timers Browser.outside
       Browser.effects Browser.nodes Browser.radios Browser.save_card_checkbox
       Browser.payment_element Browser.search Browser.origin Browser.pathname
       Browser.stripe Browser.elements Browser.currentMode];
  cbv beta iota zeta.

Ltac use_load_outcome :=
  match goal with
  | |- context [Browser.loadPaymentElement ?e ?te ?ns ?ep ?b ?tm] =>
      let Hn := fresh "Hnormal" in
      let Hm := fresh "Hmode" in
      let Hs := fresh "Hstripe" in
      let Hf := fresh "Hframe" in
      let r := fresh "r" in
      let more := fresh "more" in
      let He := fresh "Heffects" in
      let Ho := fresh "Hone" in
      destruct (load_outcome e te ns ep b tm)
        as (Hn & Hm & Hs & Hf & r & more & He & Ho & _);
      cbv [Browser.document Browser.globals Browser.effects Browser.nodes
           Browser.currentMode Browser.stripe] in Hm, Hs, Hf, He
  end.

Section Modes.
Context {N : Type}.
Variable env : Browser.Env N.
Variable TypeError : obj.
Variable Number_toString : spec_float -> string.

(** What [updatePaymentMode] comes to, in either revision. *)
Lemma update_outcome (rev : Revision) (t : Browser.Tab N) :
  let mode :=
    match find Browser.checked (Browser.radios (Browser.document t)) with
    | Some radio => Browser.value radio
    | None => Browser.currentMode (Browser.globals t)
    end in
  let amount := match rev with Platform => 100%Z | Connected => 500%Z end in
  let json_type : obj := {[ "Content-Type" := JStr "application/json" ]} in
  let request :=
    if String.eqb mode "pay_now"
    then Browser.Fetch "/create-payment-intent" "POST" json_type
           {[ "amount" := js_int amount; "currency" := JStr "gbp";
              "saveCard" :=
                JBool (Browser.save_card_checkbox (Browser.document t)) ]}
    else if String.eqb mode "save_card"
    then Browser.Fetch "/create-customer-setup-intent" "POST" json_type ∅
    else Browser.Fetch "/create-setup-intent" "POST" json_type ∅ in
  let out := updatePaymentMode_of rev env TypeError Number_toString t in
  fst out = Normal tt
  /\ Browser.currentMode (Browser.globals (snd out)) = mode
  /\ Browser.stripe (Browser.globals (snd out)) = Browser.stripe (Browser.globals t)
  /\ exists r more,
      Browser.effects (snd out) = (Browser.effects t ++ (request, r) :: more)%list
      /\ (forall ep m h b r', ~ In (Browser.Fetch ep m h b, r') more).
Proof.
  intros mode amount json_type request out.
  subst out request json_type amount mode.
  destruct t as [[nodes radios box mounted0 search origin pathname]
                   [stripe0 elements0 mode0] timers n effects].
  destruct rev; update_unfold;
    destruct (find Browser.checked radios) as [radio |]; cbv beta iota zeta;
    match goal with
    | |- context [String.eqb ?m "pay_now"] =>
        destruct (String.eqb m "pay_now");
        [| destruct (String.eqb m "save_card")]
    end;
    use_load_outcome;
    (split; [exact Hnormal | split; [exact Hmode | split; [exact Hstripe |]]]);
    exists r, more; auto.
Qed.

(** X13. [updatePaymentMode], in either revision of the script, never
    throws and places exactly one [fetch], as its first call.  The mode is
    the value of the first checked radio button, or the earlier mode when
    none is checked.  Mode [pay_now] posts [{amount, currency: 'gbp',
    saveCard}] to [/create-payment-intent], with the checkbox as
    [saveCard] and the amount 100 in the platform revision and 500 in the
    connected-account revision; mode [save_card] posts [{}] to
    [/create-customer-setup-intent]; every other mode, known or not, posts
    [{}] to [/create-setup-intent]. *)
Theorem update_requests_by_mode :
  forall (rev : Revision) (t : Browser.Tab N),
    let mode :=
      match find Browser.checked (Browser.radios (Browser.document t)) with
      | Some radio => Browser.value radio
      | None => Browser.currentMode (Browser.globals t)
      end in
    let amount := match rev with Platform => 100%Z | Connected => 500%Z end in
    let json_type : obj := {[ "Content-Type" := JStr "application/json" ]} in
    let request :=
      if String.eqb mode "pay_now"
      then Browser.Fetch "/create-payment-intent" "POST" json_type
             {[ "amount" := js_int amount; "currency" := JStr "gbp";
                "saveCard" :=
                  JBool (Browser.save_card_checkbox (Browser.document t)) ]}
      else if String.eqb mode "save_card"
      then Browser.Fetch "/create-customer-setup-intent" "POST" json_type ∅
      else Browser.Fetch "/create-setup-intent" "POST" json_type ∅ in
    let out := updatePaymentMode_of rev env TypeError Number_toString t in
    fst out = Normal tt
    /\ Browser.currentMode (Browser.globals (snd out)) = mode
    /\ exists r more,
        Browser.effects (snd out) = (Browser.effects t ++ (request, r) :: more)%list
        /\ (forall ep m h b r', ~ In (Browser.Fetch ep m h b, r') more).
Proof.
  intros rev t mode amount json_type request out.
  destruct (update_outcome rev t) as (Hnormal & Hmode & _ & r & more & Heff & Hone).
  split; [exact Hnormal | split; [exact Hmode |]]. exists r, more. auto.
Qed.

(** What [updatePaymentMode] leaves of the document outside the seven
    elements. *)
Lemma update_document_frame (rev : Revision) (t : Browser.Tab N) :
  let out := updatePaymentMode_of rev env TypeError Number_toString t in
  Browser.radios (Browser.document (snd out)) = Browser.radios (Browser.document t)
  /\ Browser.save_card_checkbox (Browser.document (snd out))
     = Browser.save_card_checkbox (Browser.document t)
  /\ Browser.search (Browser.document (snd out)) = Browser.search (Browser.document t)
  /\ Browser.origin (Browser.document (snd out)) = Browser.origin (Browser.document t)
  /\ Browser.pathname (Browser.document (snd out))
     = Browser.pathname (Browser.document t)
  /\ (Browser.payment_element (Browser.document (snd out))
      = Browser.payment_element (Browser.document t)
      \/ Browser.payment_element (Browser.document (snd out)) = []
      \/ exists instance options paymentElement,
           In (Browser.ElementsCreate instance "payment" options,
               Resolved paymentElement) (Browser.effects (snd out))
           /\ Browser.payment_element (Browser.document (snd out))
              = [paymentElement]).
Proof.
  intros out. subst out.
  destruct t as [[nodes radios box mounted0 search origin pathname]
                   [stripe0 elements0 mode0] timers n effects].
  destruct rev; update_unfold;
    destruct (find Browser.checked radios) as [radio |]; cbv beta iota zeta;
    match goal with
    | |- context [String.eqb ?m "pay_now"] =>
        destruct (String.eqb m "pay_now");
        [| destruct (String.eqb m "save_card")]
    end;
    match goal with
    | |- context [Browser.loadPaymentElement ?e ?te ?ns ?ep ?b ?tm] =>
        let Hf := fresh "Hframe" in
        pose proof (load_document_frame e te ns ep b tm) as Hf;
        cbv [Browser.document Browser.effects Browser.radios
             Browser.save_card_checkbox Browser.payment_element Browser.search
             Browser.origin Browser.pathname] in Hf;
        cbv beta iota zeta in Hf;
        exact Hf
    end.
Qed.

(** The three elements [updatePaymentMode] writes, and the four it leaves. *)
Lemma update_nodes (rev : Revision) (t : Browser.Tab N) :
  let mode :=
    match find Browser.checked (Browser.radios (Browser.document t)) with
    | Some radio => Browser.value radio
    | None => Browser.currentMode (Browser.globals t)
    end in
  let label :=
    if String.eqb mode "pay_now"
    then match rev with
         | Platform => "Pay £1.00 Now"
         | Connected => "Pay £5.00 Now"
         end
    else if String.eqb mode "save_card" then "Save Card on File"
    else "Reserve Spot (Pay £0.00)" in
  let out := updatePaymentMode_of rev env TypeError Number_toString t in
  let node := Browser.nodes (Browser.document (snd out)) in
  hidden (node Browser.save_card_option) = negb (String.eqb mode "pay_now")
  /\ Browser.textContent (node Browser.button_text) = JStr label
  /\ (forall i,
      i <> Browser.save_card_option -> i <> Browser.button_text ->
      i <> Browser.payment_message ->
      node i = Browser.nodes (Browser.document t) i).
Proof.
  intros mode label out node.
  subst node out label mode.
  destruct t as [[nodes radios box mounted0 search origin pathname]
                   [stripe0 elements0 mode0] timers n effects].
  destruct rev; update_unfold;
    destruct (find Browser.checked radios) as [radio |]; cbv beta iota zeta;
    match goal with
    | |- context [String.eqb ?m "pay_now"] =>
        destruct (String.eqb m "pay_now");
        [| destruct (String.eqb m "save_card")]
    end;
    use_load_outcome;
    (split; [| split]);
    try (rewrite Hframe by done; node_eval; cbv [negb];
         first [reflexivity | apply hidden_after_remove | apply hidden_after_add]);
    intros i H1 H2 H3; rewrite Hframe by done;
    destruct i; try done; node_eval; reflexivity.
Qed.

(** X14. After [updatePaymentMode], in either revision, the save-card
    option is visible exactly in mode [pay_now] and hidden in every other
    mode, and the button is labelled for the mode (the reserve label for
    any mode that is neither [pay_now] nor [save_card]).  Of the rest of
    the page, the four other elements the script ever writes (the main
    container, the success screen, the submit button, the spinner), the
    radio buttons, the checkbox and the location are left as they were;
    the message may be written; and the content of [#payment-element] is
    either left as it was, or emptied, or replaced by the one payment
    element just created. *)
Theorem update_shows_save_card_option :
  forall (rev : Revision) (t : Browser.Tab N),
    let mode :=
      match find Browser.checked (Browser.radios (Browser.document t)) with
      | Some radio => Browser.value radio
      | None => Browser.currentMode (Browser.globals t)
      end in
    let label :=
      if String.eqb mode "pay_now"
      then match rev with
           | Platform => "Pay £1.00 Now"
           | Connected => "Pay £5.00 Now"
           end
      else if String.eqb mode "save_card" then "Save Card on File"
      else "Reserve Spot (Pay £0.00)" in
    let out := updatePaymentMode_of rev env TypeError Number_toString t in
    let node := Browser.nodes (Browser.document (snd out)) in
    (hidden (node Browser.save_card_option) = negb (String.eqb mode "pay_now")
     /\ Browser.textContent (node Browser.button_text) = JStr label
     /\ (forall i,
         i <> Browser.save_card_option -> i <> Browser.button_text ->
         i <> Browser.payment_message ->
         node i = Browser.nodes (Browser.document t) i))
    /\ Browser.radios (Browser.document (snd out))
       = Browser.radios (Browser.document t)
    /\ Browser.save_card_checkbox (Browser.document (snd out))
       = Browser.save_card_checkbox (Browser.document t)
    /\ Browser.search (Browser.document (snd out))
       = Browser.search (Browser.document t)
    /\ Browser.origin (Browser.document (snd out))
       = Browser.origin (Browser.document t)
    /\ Browser.pathname (Browser.document (snd out))
       = Browser.pathname (Browser.document t)
    /\ (Browser.payment_element (Browser.document (snd out))
        = Browser.payment_element (Browser.document t)
        \/ Browser.payment_element (Browser.document (snd out)) = []
        \/ exists instance options paymentElement,
             In (Browser.ElementsCreate instance "payment" options,
                 Resolved paymentElement) (Browser.effects (snd out))
             /\ Browser.payment_element (Browser.document (snd out))
                = [paymentElement]).
Proof.
  intros rev t mode label out node. split.
  - exact (update_nodes rev t).
  - exact (update_document_frame rev t).
Qed.

End Modes.

(* ===================================================================== *)
(** * Submitting the form *)
(* ===================================================================== *)

Section Submit.
Context {N : Type}.
Variable env : Browser.Env N.
Variable TypeError : obj.

(** X15. The submit listener, when Stripe.js is initialised and the
    confirmation resolves: it places exactly one call, [confirmPayment] in
    mode [pay_now] and [confirmSetup] in every other mode, with the current
    [elements] and the page's own address (origin and path) as
    [return_url]; it shows [result.error.message] when the result carries a
    truthy [error] and the success text otherwise, with one timer set; and
    it leaves the form idle: button enabled, spinner hidden, label
    visible. *)
Theorem submit_confirms_by_mode :
  forall (t : Browser.Tab N) (instance result : obj) (n1 : N),
    let options : obj :=
      {[ "elements" := Browser.elements (Browser.globals t);
         "confirmParams" :=
           JObj {[ "return_url" :=
                     JStr (Browser.origin (Browser.document t)
                           ++ Browser.pathname (Browser.document t)) ]} ]} in
    let confirm :=
      if String.eqb (Browser.currentMode (Browser.globals t)) "pay_now"
      then Browser.ConfirmPayment instance options
      else Browser.ConfirmSetup instance options in
    Browser.stripe (Browser.globals t) = JObj instance ->
    env confirm (Browser.outside t) = (Resolved result, n1) ->
    let out := Browser.on_submit env TypeError t in
    let node := Browser.nodes (Browser.document (snd out)) in
    fst out = Normal tt
    /\ Browser.effects (snd out)
       = (Browser.effects t ++ [(confirm, Resolved result)])%list
    /\ Browser.textContent (node Browser.payment_message)
       = (if ToBoolean (get "error" result)
          then match get "error" result with
               | JObj o => get "message" o
               | _ => JUndefined
               end
          else JStr "Success! Redirecting...")
    /\ hidden (node Browser.payment_message) = false
    /\ Browser.timers (snd out) = (Browser.timers t ++ [4000%Z])%list
    /\ Browser.disabled (node Browser.submit) = false
    /\ hidden (node Browser.spinner) = true
    /\ hidden (node Browser.button_text) = false.
Proof.
  intros t instance result n1 options confirm Hstripe Hconfirm out node.
  subst node out confirm options.
  destruct t as [[nodes radios box mounted0 search origin pathname]
                   [stripe0 elements0 mode] timers n effects].
  simpl in Hstripe, Hconfirm. subst stripe0.
  script_unfold.
  destruct (String.eqb mode "pay_now"); rewrite Hconfirm; cbv beta iota zeta;
    destruct (ToBoolean (get "error" result)) eqn:Herr;
    try (destruct (get "error" result) eqn:Hval; try discriminate Herr);
    cbv beta iota zeta; node_eval;
    (split; [reflexivity | split; [reflexivity | split; [reflexivity |]]]);
    (split; [apply hidden_after_remove | split; [reflexivity | split; [reflexivity |]]]);
    (split; [apply hidden_after_add | apply hidden_after_remove]).
Qed.


End Submit.

Lemma submit_confirms_by_mode_witness :
  Browser.textContent
    (Browser.nodes
       (Browser.document
          (snd (Browser.on_submit scripted_env sample_TypeError
                  (sample_tab [] "pay_now" false [Resolved card_declined]))))
       Browser.payment_message)
  = JStr "Your card was declined.".
Proof.
  refine (proj1 (proj2 (proj2
            (submit_confirms_by_mode scripted_env sample_TypeError
               (sample_tab [] "pay_now" false [Resolved card_declined])
               ∅ card_declined [] _ _)))).
  - reflexivity.
  - reflexivity.
Defined.

(* ===================================================================== *)
(** * The helpers *)
(* ===================================================================== *)

Lemma find_first_entry (name value : string) (pre rest : list (string * string)) :
  Forall (fun kv => fst kv <> name) pre ->
  find (fun kv => String.eqb (fst kv) name) (pre ++ (name, value) :: rest)
  = Some (name, value).
Proof.
  induction 1 as [| kv pre Hkv _ IH]; simpl.
  - by rewrite String.eqb_refl.
  - apply String.eqb_neq in Hkv. by rewrite Hkv.
Qed.

Lemma find_no_entry (name : string) (params : list (string * string)) :
  Forall (fun kv => fst kv <> name) params ->
  find (fun kv => String.eqb (fst kv) name) params = None.
Proof.
  induction 1 as [| kv pre Hkv _ IH]; simpl; [done |].
  apply String.eqb_neq in Hkv. by rewrite Hkv.
Qed.

(** X17. [checkUrlForSuccess] shows the success screen, and hides the
    payment container, exactly when the first [redirect_status] entry of
    the query string is the text [succeeded]; a later entry does not
    count.  With any other first value, or no such entry, it changes
    nothing at all. *)
Theorem success_screen_only_on_succeeded :
  forall (N : Type) (t : Browser.Tab N) (pre rest : list (string * string))
         (v : string),
    Forall (fun kv => fst kv <> "redirect_status") pre ->
    let out := @Browser.checkUrlForSuccess N t in
    let node := Browser.nodes (Browser.document (snd out)) in
    (Browser.search (Browser.document t)
     = (pre ++ ("redirect_status", "succeeded") :: rest)%list ->
     fst out = Normal tt
     /\ hidden (node Browser.payment_main_container) = true
     /\ hidden (node Browser.success_screen) = false
     /\ Browser.effects (snd out) = Browser.effects t
     /\ forall i, i <> Browser.payment_main_container ->
                  i <> Browser.success_screen ->
                  node i = Browser.nodes (Browser.document t) i)
    /\ (Browser.search (Browser.document t)
        = (pre ++ ("redirect_status", v) :: rest)%list ->
        v <> "succeeded" -> out = (Normal tt, t))
    /\ (Browser.search (Browser.document t) = pre -> out = (Normal tt, t)).
Proof.
  intros N t pre rest v Hpre out node. subst node out.
  destruct t as [[nodes radios box mounted0 search origin pathname]
                   [stripe0 elements0 mode] timers n effects].
  split; [| split]; simpl; intros ->.
  - script_unfold. unfold Browser.URLSearchParams_get.
    rewrite (find_first_entry _ _ _ _ Hpre). cbv beta iota zeta.
    cbn [snd Browser.strict_equals]. rewrite String.eqb_refl.
    cbv beta iota zeta.
    split; [reflexivity | split; [node_eval; apply hidden_after_add |]].
    split; [node_eval; apply hidden_after_remove | split; [reflexivity |]].
    frame_nodes.
  - intros Hv. script_unfold. unfold Browser.URLSearchParams_get.
    rewrite (find_first_entry _ _ _ _ Hpre). cbv beta iota zeta.
    cbn [snd Browser.strict_equals].
    apply String.eqb_neq in Hv. by rewrite Hv.
  - script_unfold. unfold Browser.URLSearchParams_get.
    by rewrite (find_no_entry _ _ Hpre).
Qed.

Lemma success_screen_only_on_succeeded_witness :
  @Browser.checkUrlForSuccess unit
    (sample_tab [("redirect_status", "failed"); ("redirect_status", "succeeded")]
       "pay_now" false tt)
  = (Normal tt,
     sample_tab [("redirect_status", "failed"); ("redirect_status", "succeeded")]
       "pay_now" false tt).
Proof.
  refine (proj1 (proj2
            (success_screen_only_on_succeeded unit
               (sample_tab [("redirect_status", "failed");
                            ("redirect_status", "succeeded")] "pay_now" false tt)
               [] [("redirect_status", "succeeded")] "failed" _)) _ _).
  - constructor.
  - reflexivity.
  - discriminate.
Defined.

(** X18. [setLoading(b)] sets the form's state outright, whatever it was:
    the button is disabled exactly when [b], the spinner is hidden exactly
    when not [b], the label is hidden exactly when [b].  It changes only
    the class [hidden] and the [disabled] flag of these three elements:
    their other classes and text, every other element, the globals, the
    timers and the calls made are untouched.  So [setLoading(false)] always
    restores an idle form. *)
Theorem setLoading_sets_form_state :
  forall (N : Type) (t : Browser.Tab N) (b : bool),
    let out := Browser.setLoading b t in
    let node := Browser.nodes (Browser.document (snd out)) in
    fst out = Normal tt
    /\ Browser.disabled (node Browser.submit) = b
    /\ hidden (node Browser.spinner) = negb b
    /\ hidden (node Browser.button_text) = b
    /\ (forall i c,
        c <> "hidden" ->
        (c ∈ Browser.classList (node i)
         <-> c ∈ Browser.classList (Browser.nodes (Browser.document t) i))
        /\ Browser.textContent (node i)
           = Browser.textContent (Browser.nodes (Browser.document t) i))
    /\ (forall i,
        i <> Browser.submit -> i <> Browser.spinner -> i <> Browser.button_text ->
        node i = Browser.nodes (Browser.document t) i)
    /\ Browser.globals (snd out) = Browser.globals t
    /\ Browser.timers (snd out) = Browser.timers t
    /\ Browser.effects (snd out) = Browser.effects t.
Proof.
  intros N t b out node. subst node out.
  destruct t as [[nodes radios box mounted0 search origin pathname]
                   [stripe0 elements0 mode] timers n effects].
  destruct b; script_unfold;
    (split; [reflexivity | split; [reflexivity |]]);
    (split; [node_eval; first [apply hidden_after_remove | apply hidden_after_add] |]);
    (split; [node_eval; first [apply hidden_after_remove | apply hidden_after_add] |]);
    (split; [| split; [frame_nodes | repeat split]]).
  all: intros i c Hc; destruct i; node_eval;
    (split; [| reflexivity]);
    rewrite ?elem_of_union, ?elem_of_difference, ?elem_of_singleton;
    intuition congruence.
Qed.

(** X19. A message does not get its own four seconds: when [showMessage]
    runs while an earlier timer is still pending, the earlier timer, firing
    first, hides the new message and empties its text, and the new
    message's own timer stays pending. *)
Theorem earlier_timer_hides_later_message :
  forall (N : Type) (t : Browser.Tab N) (messageText : jsval) (d : Z) (ds : list Z),
    Browser.timers t = d :: ds ->
    let shown := snd (@Browser.showMessage N messageText t) in
    let after := snd (Browser.timer_fires shown) in
    let message t' := Browser.nodes (Browser.document t') Browser.payment_message in
    hidden (message shown) = false
    /\ Browser.textContent (message shown) = messageText
    /\ hidden (message after) = true
    /\ Browser.textContent (message after) = JStr ""
    /\ Browser.timers after = (ds ++ [4000%Z])%list.
Proof.
  intros N t messageText d ds Htimers shown after message.
  subst message after shown.
  destruct t as [[nodes radios box mounted0 search origin pathname]
                   [stripe0 elements0 mode] timers n effects].
  simpl in Htimers. subst timers.
  script_unfold. cbn [app]. cbv beta iota zeta. node_eval.
  split; [apply hidden_after_remove | split; [reflexivity |]].
  split; [apply hidden_after_add | split; reflexivity].
Qed.

Lemma earlier_timer_hides_later_message_witness :
  Browser.textContent
    (Browser.nodes
       (Browser.document
          (snd (Browser.timer_fires
                  (snd (Browser.showMessage (JStr "Your card was declined.")
                          (snd (Browser.showMessage (JStr "Network Error: Failed to fetch")
                                  (sample_tab [] "pay_now" false tt))))))))
       Browser.payment_message)
  = JStr "".
Proof.
  refine (proj1 (proj2 (proj2 (proj2
            (earlier_timer_hides_later_message unit
               (snd (Browser.showMessage (JStr "Network Error: Failed to fetch")
                       (sample_tab [] "pay_now" false tt)))
               (JStr "Your card was declined.") 4000%Z [] _))))).
  reflexivity.
Defined.

(* ===================================================================== *)
(** * Starting the page *)
(* ===================================================================== *)


Section Start.
Context {N : Type}.
Variable env : Browser.Env N.
Variable TypeError : obj.
Variable Number_toString : spec_float -> string.
Variables STRIPE_PUBLISHABLE_KEY STRIPE_CONNECTED_ACCOUNT_ID : jsval.


End Start.


(* ===================================================================== *)
(** * The page and its server together *)
(* ===================================================================== *)

Lemma json_pay_now_body (rev : Revision) (box : bool) :
  let amount := match rev with Platform => 100%Z | Connected => 500%Z end in
  omap json ({[ "amount" := js_int amount; "currency" := JStr "gbp";
                "saveCard" := JBool box ]} : obj)
  = {[ "amount" := js_int amount; "currency" := JStr "gbp";
       "saveCard" := JBool box ]}.
Proof. by destruct rev, box. Qed.

Section Online.
Context {S W : Type}.
Variable stripe_sdk : jsval -> jsval -> Client W.
Variables env public : gmap string string.
Variable stripejs : Browser.Env S.
Variables SyntaxError TypeError : obj.
Variable Number_toString : spec_float -> string.

(** A JSON [POST] from the page is the request served by the application
    on the parsed body. *)
Lemma online_fetch srv endpoint (b : obj) s0 p0 :
  online srv stripe_sdk env public stripejs SyntaxError
    (Browser.Fetch endpoint "POST"
       {[ "Content-Type" := JStr "application/json" ]} b)
    (s0, mkWorld p0 [])
  = match serve srv stripe_sdk env public POST endpoint (omap json b) p0 with
    | (Normal res, w) => (Resolved (response_of res), (s0, w))
    | (Throw x, w) => (Rejected x, (s0, w))
    end.
Proof. reflexivity. Qed.

(** Reading the answer yields the JSON of the object the server sent. *)
Lemma online_json srv code (o : obj) n :
  online srv stripe_sdk env public stripejs SyntaxError
    (Browser.ResponseJson (response_of (mkRes code (Some (Sent (JObj o)))))) n
  = (Resolved (omap json o), n).
Proof. reflexivity. Qed.


(** A request the processor refuses at the customer creation. *)
Lemma online_fetch_rejected srv endpoint (b : obj) s0 p0 e p1 :
  In endpoint post_routes ->
  customers_create (stripe_of srv stripe_sdk env) p0 = (Rejected e, p1) ->
  online srv stripe_sdk env public stripejs SyntaxError
    (Browser.Fetch endpoint "POST"
       {[ "Content-Type" := JStr "application/json" ]} b)
    (s0, mkWorld p0 [])
  = (Resolved (response_of (error_response e)),
     (s0, mkWorld p1 [(CustomersCreate, Rejected e)])).
Proof.
  intros Hin Hcu. rewrite online_fetch, (exec_post _ _ _ _ _ _ _ Hin).
  unfold broker. by rewrite Hcu.
Qed.

(** X21. The checkbox reaches the processor.  When the page, in mode
    [pay_now], runs [updatePaymentMode] against a freshly started server
    whose processor creates the customer and the payment intent, the
    processor has been asked for exactly those two, the intent with the
    page's amount (100 or 500 by revision of the script) in ['gbp'], for
    the new customer, card only, and with [setup_future_usage =
    'off_session'] exactly when the save-card checkbox is ticked; and
    Stripe.js is given the intent's [client_secret] to build the form. *)
Theorem checkbox_reaches_processor :
  forall (page srv : Revision) (t : Browser.Tab (S * World W)) (s0 : S) (p0 : W)
         (instance cu : obj) (p1 : W) (i : obj) (p2 : W) (secret : string),
    let amount := match page with Platform => 100%Z | Connected => 500%Z end in
    let base : obj :=
      {[ "amount" := js_int amount; "currency" := JStr "gbp";
         "customer" := get "id" cu;
         "payment_method_types" := JArr [JStr "card"] ]} in
    let options : obj :=
      if Browser.save_card_checkbox (Browser.document t)
      then <["setup_future_usage" := JStr "off_session"]> base
      else base in
    let out :=
      updatePaymentMode_of page
        (online srv stripe_sdk env public stripejs SyntaxError)
        TypeError Number_toString t in
    Browser.outside t = (s0, mkWorld p0 []) ->
    Browser.stripe (Browser.globals t) = JObj instance ->
    match find Browser.checked (Browser.radios (Browser.document t)) with
    | Some radio => Browser.value radio
    | None => Browser.currentMode (Browser.globals t)
    end = "pay_now" ->
    customers_create (stripe_of srv stripe_sdk env) p0 = (Resolved cu, p1) ->
    paymentIntents_create (stripe_of srv stripe_sdk env) options p1
    = (Resolved i, p2) ->
    get "client_secret" i = JStr secret ->
    snd (Browser.outside (snd out))
    = mkWorld p2 [(CustomersCreate, Resolved cu);
                  (PaymentIntentsCreate options, Resolved i)]
    /\ exists options' r,
        In (Browser.StripeElements instance options', r)
           (Browser.effects (snd out))
        /\ options' !! "clientSecret" = Some (JStr secret).
Proof.
  intros page srv t s0 p0 instance cu p1 i p2 secret amount base options out
    Houtside Hstripe Hmode Hcu Hi Hsecret.
  subst out.
  destruct t as [[nodes radios box mounted0 search origin pathname]
                   [stripe0 elements0 mode0] timers n effects].
  simpl in Houtside, Hstripe, Hmode, options. subst n stripe0.
  assert (Hfetch :
    online srv stripe_sdk env public stripejs SyntaxError
      (Browser.Fetch "/create-payment-intent" "POST"
         {[ "Content-Type" := JStr "application/json" ]}
         {[ "amount" := js_int amount; "currency" := JStr "gbp";
            "saveCard" := JBool box ]})
      (s0, mkWorld p0 [])
    = (Resolved (response_of (success_response i cu)),
       (s0, mkWorld p2 [(CustomersCreate, Resolved cu);
                        (PaymentIntentsCreate options, Resolved i)]))).
  { rewrite online_fetch. subst amount. rewrite (json_pay_now_body page box).
    rewrite exec_payment. unfold broker. rewrite Hcu.
    assert (Hopt : payment_options
                     {[ "amount" := js_int
                          match page with Platform => 100%Z | Connected => 500%Z end;
                        "currency" := JStr "gbp"; "saveCard" := JBool box ]} cu
                   = options) by (by destruct page, box).
    cbn [perform]. rewrite Hopt, Hi. reflexivity. }
  assert (Hclient :
    get "clientSecret"
      (omap json ({[ "clientSecret" := get "client_secret" i;
                     "customerId" := get "id" cu ]} : obj)) = JStr secret
    /\ get "error"
         (omap json ({[ "clientSecret" := get "client_secret" i;
                        "customerId" := get "id" cu ]} : obj)) = JUndefined).
  { split.
    - unfold get at 1. rewrite lookup_omap, lookup_insert_eq. simpl.
      by rewrite Hsecret.
    - unfold get at 1.
      by rewrite lookup_omap, lookup_insert_ne, lookup_singleton_ne. }
  destruct Hclient as [Hcs Herr].
  destruct page; update_unfold;
    (destruct (find Browser.checked radios) as [radio |];
     cbv beta iota zeta; simpl in Hmode; rewrite Hmode;
     cbn [String.eqb Ascii.eqb Bool.eqb]);
    script_unfold;
    subst amount; rewrite Hfetch; cbv beta iota zeta;
    unfold success_response; rewrite online_json; cbv beta iota zeta;
    rewrite Herr, Hcs; cbn [ToBoolean]; cbv beta iota zeta;
    cbv [online]; cbv beta iota zeta; cbn [fst snd];
    repeat match goal with
      | |- context [stripejs ?e ?s] =>
          destruct (stripejs e s) as [[? | ?] ?]; cbv beta iota zeta
      end;
    cbn [fst snd];
    (split; [reflexivity |]);
    eexists _, _;
    (split; [rewrite <- ?app_assoc; cbn [app]; apply in_or_app; right;
             right; right; left; reflexivity
            | reflexivity]).
Qed.

(** X22. The processor's refusal reaches the page.  When
    [updatePaymentMode], in any mode and either revision of the script,
    runs against a freshly started server whose processor rejects the
    customer creation with a text message, the server places no further
    call, the page shows exactly that message, and Stripe.js is not
    called: the only calls of the page are the [fetch] and the reading of
    its answer. *)
Theorem processor_message_reaches_page :
  forall (page srv : Revision) (t : Browser.Tab (S * World W)) (s0 : S) (p0 : W)
         (e : obj) (p1 : W) (msg : string),
    let out :=
      updatePaymentMode_of page
        (online srv stripe_sdk env public stripejs SyntaxError)
        TypeError Number_toString t in
    let message := Browser.nodes (Browser.document (snd out)) Browser.payment_message in
    Browser.outside t = (s0, mkWorld p0 []) ->
    customers_create (stripe_of srv stripe_sdk env) p0 = (Rejected e, p1) ->
    get "message" e = JStr msg ->
    Browser.textContent message = JStr msg
    /\ hidden message = false
    /\ snd (Browser.outside (snd out)) = mkWorld p1 [(CustomersCreate, Rejected e)]
    /\ exists request response data,
        Browser.effects (snd out)
        = (Browser.effects t
           ++ [ (request, Resolved response);
                (Browser.ResponseJson response, Resolved data) ])%list.
Proof.
  intros page srv t s0 p0 e p1 msg out message Houtside Hcu Hmsg.
  subst message out.
  destruct t as [[nodes radios box mounted0 search origin pathname]
                   [stripe0 elements0 mode0] timers n effects].
  simpl in Houtside. subst n.
  assert (Hbody :
    omap json ({[ "error" := JObj {[ "message" := get "message" e ]} ]} : obj)
    = {[ "error" := JObj {[ "message" := JStr msg ]} ]})
    by (by rewrite Hmsg).
  destruct page; update_unfold;
    destruct (find Browser.checked radios) as [radio |]; cbv beta iota zeta;
    match goal with
    | |- context [String.eqb ?m "pay_now"] =>
        destruct (String.eqb m "pay_now");
        [| destruct (String.eqb m "save_card")]
    end;
    script_unfold;
    rewrite (online_fetch_rejected srv _ _ s0 p0 e p1) by (simpl; auto);
    cbv beta iota zeta;
    unfold error_response; rewrite online_json; cbv beta iota zeta;
    rewrite Hbody;
    change (get "error" ({[ "error" := JObj {[ "message" := JStr msg ]} ]} : obj))
      with (JObj {[ "message" := JStr msg ]});
    cbn [ToBoolean]; cbv beta iota zeta;
    change (get "message" ({[ "message" := JStr msg ]} : obj)) with (JStr msg);
    cbn [fst snd]; node_eval;
    (split; [reflexivity | split; [apply hidden_after_remove |]]);
    (split; [reflexivity |]);
    eexists _, _, _; rewrite <- ?app_assoc; reflexivity.
Qed.

End Online.

Lemma checkbox_reaches_processor_witness :
  snd (Browser.outside
         (snd (updatePaymentMode_of Connected
                 (online Connected scripted_sdk sample_env sample_public
                    obliging_stripejs sample_SyntaxError)
                 sample_TypeError sample_Number_toString
                 (sample_tab [] "pay_now" true
                    (tt, mkWorld [Resolved customer_1; Resolved intent_1] [])))))
  = mkWorld []
      [(CustomersCreate, Resolved customer_1);
       (PaymentIntentsCreate
          (<["setup_future_usage" := JStr "off_session"]>
             {[ "amount" := js_int 500; "currency" := JStr "gbp";
                "customer" := JStr "cus_1";
                "payment_method_types" := JArr [JStr "card"] ]}),
        Resolved intent_1)].
Proof.
  refine (proj1 (checkbox_reaches_processor scripted_sdk sample_env sample_public
                   obliging_stripejs sample_SyntaxError sample_TypeError
                   sample_Number_toString Connected Connected
                   (sample_tab [] "pay_now" true
                      (tt, mkWorld [Resolved customer_1; Resolved intent_1] []))
                   tt [Resolved customer_1; Resolved intent_1] ∅ customer_1
                   [Resolved intent_1] intent_1 [] "pi_1_secret_1" _ _ _ _ _ _));
    reflexivity.
Defined.

Lemma processor_message_reaches_page_witness :
  Browser.textContent
    (Browser.nodes
       (Browser.document
          (snd (updatePaymentMode_of Platform
                  (online Platform scripted_sdk sample_env sample_public
                     obliging_stripejs sample_SyntaxError)
                  sample_TypeError sample_Number_toString
                  (sample_tab [] "save_card" false
                     (tt, mkWorld [Rejected invalid_api_key] [])))))
       Browser.payment_message)
  = JStr "Invalid API Key provided".
Proof.
  refine (proj1 (processor_message_reaches_page scripted_sdk sample_env
                   sample_public obliging_stripejs sample_SyntaxError
                   sample_TypeError sample_Number_toString Platform Platform
                   (sample_tab [] "save_card" false
                      (tt, mkWorld [Rejected invalid_api_key] []))
                   tt [Rejected invalid_api_key] invalid_api_key []
                   "Invalid API Key provided" _ _ _)); reflexivity.
Defined.
